(** * AI voice-to-voice interviewer: the interview pages and their session protocol

    A shallow embedding of the React pages of the interviewer front end
    ([InterviewPage.jsx], [VoiceInterviewPage.jsx], [Analytics.jsx],
    [InterviewResults.jsx], [InterviewHistory.jsx], [Dashboard.jsx],
    [ResumeManagement.jsx], [JobBoard.jsx]) together with the session
    components that the specification describes but whose code lives in the
    back end.

    Conventions of the embedding.
    - A JavaScript number that the pages only ever use as a counter (seconds,
      question numbers) is a [nat]; a score that a page compares and prints
      is a [Z], one that a page passes to [parseInt] is a [JS.Value], a
      number or a string; where a computation can
      leave the integers the number is a [JS.Num], which adds [NaN] and the
      two infinities.  All of them stand for integers in the range where
      doubles are exact and [toString] prints plain digits.
    - A JavaScript string is a [string]: a sequence of 8-bit code units.
    - A property that an object may lack is an [option], [None] standing for
      a missing property, [null] and [undefined] alike.
    - A React state hook [const [x, setX] = useState(v)] is a field [x] of the
      page's state record; a handler is a function from the state (and the
      outcome of what it awaits) to the new state and the list of commands it
      issued to the outside (alerts, requests, speech), in program order. *)

From Stdlib Require Import ZArith QArith Qround Ascii String DecimalString DecimalNat Lia.
From stdpp Require Import base option list sorting gmap strings.

Local Open Scope nat_scope.

(** ** JavaScript built-ins used by the pages *)

Module JS.

(** [Number.prototype.toString()] on a non-negative integer. *)
Definition toString (n : nat) : string :=
  NilEmpty.string_of_uint (Nat.to_uint n).

(** [Number.prototype.toString()] on an integer. *)
Definition toStringZ (z : Z) : string :=
  if (z <? 0)%Z then String "-" (toString (Z.abs_nat z)) else toString (Z.to_nat z).

(** The first [k] code units of [fill] repeated for ever; [cur] is what is
    left of the current copy. *)
Fixpoint repeatTo (fill cur : string) (k : nat) : string :=
  match k with
  | 0 => EmptyString
  | S k' =>
      match cur with
      | String c cur' => String c (repeatTo fill cur' k')
      | EmptyString =>
          match fill with
          | String c cur' => String c (repeatTo fill cur' k')
          | EmptyString => EmptyString
          end
      end
  end.

(** [String.prototype.padStart(targetLength, padString)]. *)
Definition padStart (s : string) (targetLength : nat) (padString : string) : string :=
  if targetLength <=? String.length s then s
  else repeatTo padString padString (targetLength - String.length s) +:+ s.

(** White space and line terminators among the code units below 256:
    TAB, LF, VT, FF, CR, SP and NBSP. *)
Definition isWhiteSpace (c : ascii) : bool :=
  let n := nat_of_ascii c in
  (9 <=? n) && (n <=? 13) || (n =? 32) || (n =? 160).

Fixpoint trimStart (s : string) : string :=
  match s with
  | String c s' => if isWhiteSpace c then trimStart s' else s
  | EmptyString => EmptyString
  end.

(** Drops the white space at the end: a code unit is kept when it is not
    white space or when something is kept after it. *)
Fixpoint trimEnd (s : string) : string :=
  match s with
  | String c s' =>
      match trimEnd s' with
      | EmptyString => if isWhiteSpace c then EmptyString else String c EmptyString
      | t => String c t
      end
  | EmptyString => EmptyString
  end.

(** [String.prototype.trim()]. *)
Definition trim (s : string) : string := trimEnd (trimStart s).

(** Truthiness of a string: every string but the empty one. *)
Definition truthy (s : string) : bool :=
  match s with EmptyString => false | String _ _ => true end.

(** Truthiness of a property that may be missing. *)
Definition truthyProp (o : option string) : bool :=
  match o with Some s => truthy s | None => false end.

(** The value of a digit in radix 10 or 16, [None] for any other code unit. *)
Definition digitValue (radix : nat) (c : ascii) : option nat :=
  let n := nat_of_ascii c in
  if (48 <=? n) && (n <=? 57) then Some (n - 48)
  else if (radix =? 16) && (97 <=? n) && (n <=? 102) then Some (n - 87)
  else if (radix =? 16) && (65 <=? n) && (n <=? 70) then Some (n - 55)
  else None.

(** Reads the longest prefix of digits, most significant first; [acc] is the
    value read so far and [seen] tells whether a digit was read. *)
Fixpoint readDigits (radix : nat) (s : string) (acc : nat) (seen : bool) : option nat :=
  match s with
  | String c s' =>
      match digitValue radix c with
      | Some d => readDigits radix s' (radix * acc + d) true
      | None => if seen then Some acc else None
      end
  | EmptyString => if seen then Some acc else None
  end.

Definition isDigit (c : ascii) : bool :=
  let n := nat_of_ascii c in (48 <=? n) && (n <=? 57).

Fixpoint allDigits (s : string) : bool :=
  match s with
  | String c s' => isDigit c && allDigits s'
  | EmptyString => true
  end.

(** The number a field of decimal digits shows; [None] when the field is
    empty or holds anything but digits. *)
Definition decimalValue (s : string) : option nat :=
  if allDigits s then readDigits 10 s 0 false else None.

(** Splits an optional sign off the front. *)
Definition readSign (s : string) : bool * string :=
  match s with
  | String "-" s' => (true, s')
  | String "+" s' => (false, s')
  | _ => (false, s)
  end.

(** Splits the [0x] or [0X] that selects radix 16 off the front. *)
Definition readRadix (s : string) : nat * string :=
  match s with
  | String "0" (String "x" s') => (16, s')
  | String "0" (String "X" s') => (16, s')
  | _ => (10, s)
  end.

(** [parseInt(string)] without a radix argument; [None] is [NaN]. *)
Definition parseIntString (s : string) : option Z :=
  let '(negative, s1) := readSign (trimStart s) in
  let '(radix, s2) := readRadix s1 in
  match readDigits radix s2 0 false with
  | Some m => Some (if negative then (- Z.of_nat m)%Z else Z.of_nat m)
  | None => None
  end.

(** [Math.round(q)]: the nearest integer, a half rounded up. *)
Definition Math_round (q : Q) : Z := Qfloor (q + (1 # 2)).

(** A number whose finite values are integers. *)
Inductive Num :=
| Fin (z : Z)
| NaN
| PosInfinity
| NegInfinity.

(** [parseInt(n)] on an integer: the argument is converted to a string
    first, which prints an integer below 10^21 in plain digits. *)
Definition parseInt (z : Z) : Num :=
  match parseIntString (toStringZ z) with
  | Some v => Fin v
  | None => NaN
  end.

(** A value that is a number or a string, as a property of a JSON reply can
    be; a number is taken to be an integer. *)
Inductive Value :=
| Number (z : Z)
| Text (s : string).

(** [parseInt(v)]: a string is read as it is, a number is converted to a
    string first. *)
Definition parseIntValue (v : Value) : Num :=
  match v with
  | Number z => parseInt z
  | Text s =>
      match parseIntString s with
      | Some n => Fin n
      | None => NaN
      end
  end.

(** [a + b]. *)
Definition add (a b : Num) : Num :=
  match a, b with
  | NaN, _ | _, NaN => NaN
  | Fin x, Fin y => Fin (x + y)
  | PosInfinity, NegInfinity | NegInfinity, PosInfinity => NaN
  | PosInfinity, _ | _, PosInfinity => PosInfinity
  | NegInfinity, _ | _, NegInfinity => NegInfinity
  end.

(** [Math.round(a / n)] for an array length [n]. *)
Definition roundDiv (a : Num) (n : nat) : Num :=
  match a, n with
  | NaN, _ => NaN
  | PosInfinity, _ => PosInfinity
  | NegInfinity, _ => NegInfinity
  | Fin x, 0 => if (0 <? x)%Z then PosInfinity else if (x <? 0)%Z then NegInfinity else NaN
  | Fin x, S _ => Fin (Math_round (inject_Z x / inject_Z (Z.of_nat n)))
  end.

(** The larger of two numbers, as [Math.max] folds them. *)
Definition max2 (a b : Num) : Num :=
  match a, b with
  | NaN, _ | _, NaN => NaN
  | PosInfinity, _ | _, PosInfinity => PosInfinity
  | NegInfinity, x | x, NegInfinity => x
  | Fin x, Fin y => Fin (Z.max x y)
  end.

(** The smaller of two numbers, as [Math.min] folds them. *)
Definition min2 (a b : Num) : Num :=
  match a, b with
  | NaN, _ | _, NaN => NaN
  | NegInfinity, _ | _, NegInfinity => NegInfinity
  | PosInfinity, x | x, PosInfinity => x
  | Fin x, Fin y => Fin (Z.min x y)
  end.

(** [a <= b] on numbers; a comparison with [NaN] is false. *)
Definition le (a b : Num) : bool :=
  match a, b with
  | NaN, _ | _, NaN => false
  | NegInfinity, _ | _, PosInfinity => true
  | Fin x, Fin y => (x <=? y)%Z
  | _, _ => false
  end.

(** [Math.max(...xs)]; of no argument it is [-Infinity]. *)
Definition Math_max (xs : list Num) : Num := fold_left max2 xs NegInfinity.

(** [Math.min(...xs)]; of no argument it is [Infinity]. *)
Definition Math_min (xs : list Num) : Num := fold_left min2 xs PosInfinity.

(** The quotient of two numbers, which need not be an integer. *)
Inductive Real :=
| Ratio (q : Q)
| NotANumber
| PlusInfinity
| MinusInfinity.

(** [a / n] for an array length [n]. *)
Definition divide (a : Num) (n : nat) : Real :=
  match a, n with
  | NaN, _ => NotANumber
  | PosInfinity, _ => PlusInfinity
  | NegInfinity, _ => MinusInfinity
  | Fin x, 0 =>
      if (0 <? x)%Z then PlusInfinity else if (x <? 0)%Z then MinusInfinity else NotANumber
  | Fin x, S _ => Ratio (inject_Z x / inject_Z (Z.of_nat n))
  end.

(** [r > b]; a comparison with [NaN] is false. *)
Definition gt (r : Real) (b : Num) : bool :=
  match r, b with
  | NotANumber, _ | _, NaN => false
  | PlusInfinity, PosInfinity => false
  | PlusInfinity, _ => true
  | MinusInfinity, _ => false
  | Ratio _, PosInfinity => false
  | Ratio _, NegInfinity => true
  | Ratio q, Fin y => negb (Qle_bool q (inject_Z y))
  end.

(** [r < b]; a comparison with [NaN] is false. *)
Definition lt (r : Real) (b : Num) : bool :=
  match r, b with
  | NotANumber, _ | _, NaN => false
  | MinusInfinity, NegInfinity => false
  | MinusInfinity, _ => true
  | PlusInfinity, _ => false
  | Ratio _, NegInfinity => false
  | Ratio _, PosInfinity => true
  | Ratio q, Fin y => negb (Qle_bool (inject_Z y) q)
  end.

(** The names of the properties that an object literal inherits from
    [Object.prototype]: for these, and for no other key, [map[key]] is
    something before the key was ever written. *)
Definition inherited : list string :=
  [ "constructor"; "__defineGetter__"; "__defineSetter__"; "hasOwnProperty";
    "__lookupGetter__"; "__lookupSetter__"; "isPrototypeOf"; "propertyIsEnumerable";
    "toString"; "valueOf"; "__proto__"; "toLocaleString" ].

(** A number as a template literal prints it. *)
Definition show (a : Num) : string :=
  match a with
  | Fin z => toStringZ z
  | NaN => "NaN"
  | PosInfinity => "Infinity"
  | NegInfinity => "-Infinity"
  end.

End JS.

(** ** The interview records the results API returns *)

Module Api.

(** The assessment of an interview.  A property that the record does not
    have is [None].  The type of the score is left open: the pages that
    compare and print the score are modelled for a score that is a number,
    the pages that pass it to [parseInt] for any number or string. *)
Record AssessmentOf {score : Type} := {
  candidate_score_percent : option score;
  hiring_recommendation : option string;
  summary : option string;
  strengths : option (list string);
  weaknesses : option (list string);
  improvement_areas : option (list string);
  recommendations : option (list string)
}.

(** [{}]: an assessment with no property. *)
Definition emptyAssessment {score : Type} : @AssessmentOf score := {|
  candidate_score_percent := None;
  hiring_recommendation := None;
  summary := None;
  strengths := None;
  weaknesses := None;
  improvement_areas := None;
  recommendations := None
|}.

(** One interview as [getUserResults] and [getSessionResult] return it. *)
Record ResultOf {score : Type} := { assessment : option (@AssessmentOf score) }.

(** An assessment and a result whose score is a number. *)
Abbreviation Assessment := (@AssessmentOf Z).
Abbreviation Result := (@ResultOf Z).

(** A result as it is parsed from the reply, the score a number or a
    string. *)
Abbreviation Reply := (@ResultOf JS.Value).

(** [x || 0] on a number that may be missing: 0 is falsy as well. *)
Definition orZero (x : option Z) : Z :=
  match x with
  | Some z => if (z =? 0)%Z then 0%Z else z
  | None => 0%Z
  end.

(** [x || 0] on a number or string that may be missing: 0 and the empty
    string are falsy as well. *)
Definition orZeroValue (x : option JS.Value) : JS.Value :=
  match x with
  | Some (JS.Number z) => JS.Number (if (z =? 0)%Z then 0%Z else z)
  | Some (JS.Text s) => if JS.truthy s then JS.Text s else JS.Number 0
  | None => JS.Number 0
  end.

End Api.

(** ** InterviewPage.jsx: the text interview page *)

Module InterviewPage.

(** [formatTime]: format time as MM:SS. *)
Definition formatTime (seconds : nat) : string :=
  let mins := seconds / 60 in
  let secs := seconds mod 60 in
  JS.padStart (JS.toString mins) 2 "0" +:+ ":" +:+ JS.padStart (JS.toString secs) 2 "0".

(** One entry of the chat transcript. *)
Inductive Sender := ai | user.

Record Message := { sender : Sender; text : string }.

(** What [submitAnswer] resolves to.  [nextQuestionNumber] is read only when
    [nextQuestion] is there. *)
Record Response := {
  nextQuestion : option string;
  nextQuestionNumber : nat;
  closingMessage : option string;
  message : option string
}.

(** The outcome of awaiting [submitAnswer]: it resolves to a response, or it
    rejects and the [catch] branch runs. *)
Inductive Outcome :=
| Resolved (response : Response)
| Rejected.

(** What a handler asks of the world outside the component, in program
    order. *)
Inductive Command :=
| Alert (text : string)
| StopRecording
| SubmitAnswer (sessionId : option string) (questionNumber : nat) (answer : string)
| Speak (text : string)
| LogError (label : string).

(** The [useState] hooks of the component, and what [useAudioRecorder]
    hands it ([isRecording], [audioBlob]). *)
Record State := {
  messages : list Message;
  input : string;
  sessionId : option string;
  currentQuestion : string;
  questionNumber : nat;
  currentQuestionNumber : nat;
  isComplete : bool;
  loading : bool;
  error : option string;
  interviewEnded : bool;
  elapsedTime : nat;
  isTimerRunning : bool;
  isRecording : bool;
  audioBlob : option string;
  isTranscribing : bool;
  recordingDuration : nat
}.

(** The component as first rendered. *)
Definition initial : State := {|
  messages := [];
  input := "";
  sessionId := None;
  currentQuestion := "";
  questionNumber := 0;
  currentQuestionNumber := 0;
  isComplete := false;
  loading := false;
  error := None;
  interviewEnded := false;
  elapsedTime := 0;
  isTimerRunning := false;
  isRecording := false;
  audioBlob := None;
  isTranscribing := false;
  recordingDuration := 0
|}.

Definition setMessages (f : list Message -> list Message) (s : State) : State := {|
  messages := f (messages s); input := input s; sessionId := sessionId s;
  currentQuestion := currentQuestion s; questionNumber := questionNumber s;
  currentQuestionNumber := currentQuestionNumber s; isComplete := isComplete s;
  loading := loading s; error := error s; interviewEnded := interviewEnded s;
  elapsedTime := elapsedTime s; isTimerRunning := isTimerRunning s;
  isRecording := isRecording s; audioBlob := audioBlob s;
  isTranscribing := isTranscribing s; recordingDuration := recordingDuration s |}.

Definition setInput (v : string) (s : State) : State := {|
  messages := messages s; input := v; sessionId := sessionId s;
  currentQuestion := currentQuestion s; questionNumber := questionNumber s;
  currentQuestionNumber := currentQuestionNumber s; isComplete := isComplete s;
  loading := loading s; error := error s; interviewEnded := interviewEnded s;
  elapsedTime := elapsedTime s; isTimerRunning := isTimerRunning s;
  isRecording := isRecording s; audioBlob := audioBlob s;
  isTranscribing := isTranscribing s; recordingDuration := recordingDuration s |}.

Definition setSessionId (v : option string) (s : State) : State := {|
  messages := messages s; input := input s; sessionId := v;
  currentQuestion := currentQuestion s; questionNumber := questionNumber s;
  currentQuestionNumber := currentQuestionNumber s; isComplete := isComplete s;
  loading := loading s; error := error s; interviewEnded := interviewEnded s;
  elapsedTime := elapsedTime s; isTimerRunning := isTimerRunning s;
  isRecording := isRecording s; audioBlob := audioBlob s;
  isTranscribing := isTranscribing s; recordingDuration := recordingDuration s |}.

Definition setCurrentQuestionNumber (v : nat) (s : State) : State := {|
  messages := messages s; input := input s; sessionId := sessionId s;
  currentQuestion := currentQuestion s; questionNumber := questionNumber s;
  currentQuestionNumber := v; isComplete := isComplete s;
  loading := loading s; error := error s; interviewEnded := interviewEnded s;
  elapsedTime := elapsedTime s; isTimerRunning := isTimerRunning s;
  isRecording := isRecording s; audioBlob := audioBlob s;
  isTranscribing := isTranscribing s; recordingDuration := recordingDuration s |}.

Definition setLoading (v : bool) (s : State) : State := {|
  messages := messages s; input := input s; sessionId := sessionId s;
  currentQuestion := currentQuestion s; questionNumber := questionNumber s;
  currentQuestionNumber := currentQuestionNumber s; isComplete := isComplete s;
  loading := v; error := error s; interviewEnded := interviewEnded s;
  elapsedTime := elapsedTime s; isTimerRunning := isTimerRunning s;
  isRecording := isRecording s; audioBlob := audioBlob s;
  isTranscribing := isTranscribing s; recordingDuration := recordingDuration s |}.

Definition setError (v : option string) (s : State) : State := {|
  messages := messages s; input := input s; sessionId := sessionId s;
  currentQuestion := currentQuestion s; questionNumber := questionNumber s;
  currentQuestionNumber := currentQuestionNumber s; isComplete := isComplete s;
  loading := loading s; error := v; interviewEnded := interviewEnded s;
  elapsedTime := elapsedTime s; isTimerRunning := isTimerRunning s;
  isRecording := isRecording s; audioBlob := audioBlob s;
  isTranscribing := isTranscribing s; recordingDuration := recordingDuration s |}.

Definition setInterviewEnded (v : bool) (s : State) : State := {|
  messages := messages s; input := input s; sessionId := sessionId s;
  currentQuestion := currentQuestion s; questionNumber := questionNumber s;
  currentQuestionNumber := currentQuestionNumber s; isComplete := isComplete s;
  loading := loading s; error := error s; interviewEnded := v;
  elapsedTime := elapsedTime s; isTimerRunning := isTimerRunning s;
  isRecording := isRecording s; audioBlob := audioBlob s;
  isTranscribing := isTranscribing s; recordingDuration := recordingDuration s |}.

Definition setElapsedTime (f : nat -> nat) (s : State) : State := {|
  messages := messages s; input := input s; sessionId := sessionId s;
  currentQuestion := currentQuestion s; questionNumber := questionNumber s;
  currentQuestionNumber := currentQuestionNumber s; isComplete := isComplete s;
  loading := loading s; error := error s; interviewEnded := interviewEnded s;
  elapsedTime := f (elapsedTime s); isTimerRunning := isTimerRunning s;
  isRecording := isRecording s; audioBlob := audioBlob s;
  isTranscribing := isTranscribing s; recordingDuration := recordingDuration s |}.

Definition setIsTimerRunning (v : bool) (s : State) : State := {|
  messages := messages s; input := input s; sessionId := sessionId s;
  currentQuestion := currentQuestion s; questionNumber := questionNumber s;
  currentQuestionNumber := currentQuestionNumber s; isComplete := isComplete s;
  loading := loading s; error := error s; interviewEnded := interviewEnded s;
  elapsedTime := elapsedTime s; isTimerRunning := v;
  isRecording := isRecording s; audioBlob := audioBlob s;
  isTranscribing := isTranscribing s; recordingDuration := recordingDuration s |}.

Definition setRecordingDuration (f : nat -> nat) (s : State) : State := {|
  messages := messages s; input := input s; sessionId := sessionId s;
  currentQuestion := currentQuestion s; questionNumber := questionNumber s;
  currentQuestionNumber := currentQuestionNumber s; isComplete := isComplete s;
  loading := loading s; error := error s; interviewEnded := interviewEnded s;
  elapsedTime := elapsedTime s; isTimerRunning := isTimerRunning s;
  isRecording := isRecording s; audioBlob := audioBlob s;
  isTranscribing := isTranscribing s; recordingDuration := f (recordingDuration s) |}.

(** What the recorder hook reports: a recording is running or not. *)
Definition setIsRecording (v : bool) (s : State) : State := {|
  messages := messages s; input := input s; sessionId := sessionId s;
  currentQuestion := currentQuestion s; questionNumber := questionNumber s;
  currentQuestionNumber := currentQuestionNumber s; isComplete := isComplete s;
  loading := loading s; error := error s; interviewEnded := interviewEnded s;
  elapsedTime := elapsedTime s; isTimerRunning := isTimerRunning s;
  isRecording := v; audioBlob := audioBlob s;
  isTranscribing := isTranscribing s; recordingDuration := recordingDuration s |}.

Definition MIN_RECORDING_DURATION : nat := 4.

Definition greeting : string := "Hello! I'm your AI interviewer. Let's begin!".

Definition defaultClosing : string := "Thank you! The interview has been completed.".

Definition apology : string :=
  "Sorry, there was an error processing your answer. Please try again.".

Definition tooShortAlert (duration : nat) : string :=
  "Please record for at least " +:+ JS.toString MIN_RECORDING_DURATION
  +:+ " seconds. Current: " +:+ JS.toString duration +:+ "s".

(** The interval callback of the interview timer; the interval exists while
    [isTimerRunning && !isComplete]. *)
Definition timerTick (s : State) : State :=
  if isTimerRunning s && negb (isComplete s) then setElapsedTime S s else s.

(** The effect on [isRecording], run when the recorder reports that a
    recording has started: the duration is set back to 0 and the recording
    timer is started. *)
Definition recordingStarted (s : State) : State :=
  setRecordingDuration (fun _ => 0) (setIsRecording true s).

(** The interval callback of the recording timer; the interval exists while
    [isRecording]. *)
Definition recordingTick (s : State) : State :=
  if isRecording s then setRecordingDuration S s else s.

(** [checkResumeAndInitialize], on the path where the session starts and the
    first question arrives. *)
Definition initialized (newSessionId firstQuestion : string) (s : State) : State * list Command :=
  let s1 := setLoading true s in
  let s2 := setSessionId (Some newSessionId) s1 in
  let s3 := setMessages (fun _ => [ {| sender := ai; text := greeting |};
                                    {| sender := ai; text := firstQuestion |} ]) s2 in
  let s4 := setCurrentQuestionNumber 1 s3 in
  let s5 := setIsTimerRunning true s4 in
  (setLoading false s5, [Speak greeting; Speak firstQuestion]).

(** [checkResumeAndInitialize], on the path where starting the session or
    fetching the first question throws. *)
Definition initializationFailed (detail : option string) (s : State) : State * list Command :=
  let shown := match detail with
               | Some d => if JS.truthy d then d else "Failed to start interview. Please try again."
               | None => "Failed to start interview. Please try again."
               end in
  (setLoading false (setError (Some shown) s), [LogError "Interview initialization error:"]).

(** [handleStopRecording]: the click on the stop button. *)
Definition handleStopRecording (s : State) : State * list Command :=
  if recordingDuration s <? MIN_RECORDING_DURATION then
    (s, [Alert (tooShortAlert (recordingDuration s))])
  else
    (s, [StopRecording]).

(** [handleSend], with the outcome of the [submitAnswer] it awaits. *)
Definition handleSend (s : State) (outcome : Outcome) : State * list Command :=
  if negb (JS.truthy (JS.trim (input s))) || loading s || interviewEnded s then (s, [])
  else
    let userAnswer := JS.trim (input s) in
    let s1 := setInput "" s in
    let s2 := setMessages (fun prev => prev ++ [ {| sender := user; text := userAnswer |} ]) s1 in
    let s3 := setLoading true s2 in
    let request := SubmitAnswer (sessionId s) (currentQuestionNumber s) userAnswer in
    match outcome with
    | Resolved response =>
        if JS.truthyProp (nextQuestion response) then
          let question := default "" (nextQuestion response) in
          let s4 := setMessages (fun prev => prev ++ [ {| sender := ai; text := question |} ]) s3 in
          let s5 := setCurrentQuestionNumber (nextQuestionNumber response) s4 in
          (setLoading false s5, [request; Speak question])
        else
          let finalMsg :=
            if JS.truthyProp (closingMessage response) then default "" (closingMessage response)
            else if JS.truthyProp (message response) then default "" (message response)
            else defaultClosing in
          let s4 := setMessages (fun prev => prev ++ [ {| sender := ai; text := finalMsg |} ]) s3 in
          let s5 := setInterviewEnded true s4 in
          (setLoading false s5, [request; Speak finalMsg])
    | Rejected =>
        let s4 := setMessages (fun prev => prev ++ [ {| sender := ai; text := apology |} ]) s3 in
        (setLoading false s4, [request; LogError "Submit answer error:"; Speak apology])
    end.

(** Whether the guard of [handleSend] lets the answer through. *)
Definition accepts (s : State) : bool :=
  negb (negb (JS.truthy (JS.trim (input s))) || loading s || interviewEnded s).

(** The number of [submitAnswer] requests among the commands. *)
Fixpoint submissions (cmds : list Command) : nat :=
  match cmds with
  | SubmitAnswer _ _ _ :: rest => S (submissions rest)
  | _ :: rest => submissions rest
  | [] => 0
  end.

(** Whether a recording is stopped by one of the commands. *)
Fixpoint stops (cmds : list Command) : bool :=
  match cmds with
  | StopRecording :: _ => true
  | _ :: rest => stops rest
  | [] => false
  end.

(** A page on which the first question has been asked. *)
Definition asked : State :=
  fst (initialized "session-1" "Tell me about your last project." initial).

(** The same page with an answer typed in. *)
Definition answering : State := setInput " I built a compiler. " asked.

Definition setIsTranscribing (v : bool) (s : State) : State := {|
  messages := messages s; input := input s; sessionId := sessionId s;
  currentQuestion := currentQuestion s; questionNumber := questionNumber s;
  currentQuestionNumber := currentQuestionNumber s; isComplete := isComplete s;
  loading := loading s; error := error s; interviewEnded := interviewEnded s;
  elapsedTime := elapsedTime s; isTimerRunning := isTimerRunning s;
  isRecording := isRecording s; audioBlob := audioBlob s;
  isTranscribing := v; recordingDuration := recordingDuration s |}.

(** What the transcription request comes back with: [success] and a text,
    no [success] and perhaps an [error], or an exception. *)
Inductive Transcription :=
| Heard (text : string)
| NotHeard (error : option string)
| TranscriptionThrew.

(** What [transcribeAudio] asks of the world outside the component. *)
Inductive RecorderCommand :=
| PostAudio (blob : string)
| ResetRecording
| AlertUser (text : string)
| LogTranscriptionError.

(** [transcribeAudio], with what its request comes back with. *)
Definition transcribeAudio (blob : string) (t : Transcription) (s : State)
  : State * list RecorderCommand :=
  let s1 := setIsTranscribing true s in
  match t with
  | Heard text =>
      (setIsTranscribing false (setInput text s1), [PostAudio blob; ResetRecording])
  | NotHeard error =>
      (setIsTranscribing false s1,
       [PostAudio blob;
        AlertUser (if JS.truthyProp error then default "" error
                   else "No speech detected. Please try again.");
        ResetRecording])
  | TranscriptionThrew =>
      (setIsTranscribing false s1,
       [PostAudio blob; LogTranscriptionError;
        AlertUser "Failed to transcribe audio. Please try again."; ResetRecording])
  end.

(** The number of times the commands reset the recording. *)
Fixpoint resets (cmds : list RecorderCommand) : nat :=
  match cmds with
  | ResetRecording :: rest => S (resets rest)
  | _ :: rest => resets rest
  | [] => 0
  end.

(** What a render returns: the error screen, or the chat with the clock
    (shown once there is a session), the transcript, the typing dots (shown
    while [loading]), and either the input area or the banner of a finished
    interview. *)
Inductive Screen :=
| ErrorScreen (text : string)
| Chat (clock : option string) (transcript : list Message) (dots : bool)
       (inputArea : bool) (banner : bool).

Definition render (s : State) : Screen :=
  if JS.truthyProp (error s) then ErrorScreen (default "" (error s))
  else Chat (if JS.truthyProp (sessionId s) then Some (formatTime (elapsedTime s)) else None)
            (messages s) (loading s) (negb (interviewEnded s)) (interviewEnded s).

(** What can happen on the page once [checkResumeAndInitialize] has run to
    its end: the input gets a new value (typed, or set from a transcription),
    an answer is sent, the stop button is clicked, a recording starts, and
    the two timers fire.  The initialization itself, which sets the
    transcript anew when it completes, is [initialized] and
    [initializationFailed] and is not among these events. *)
Inductive Event :=
| Typed (value : string)
| Sent (outcome : Outcome)
| StopClicked
| Second
| RecordingStarted
| RecordingSecond.

Definition handle (s : State) (e : Event) : State * list Command :=
  match e with
  | Typed value => (setInput value s, [])
  | Sent outcome => handleSend s outcome
  | StopClicked => handleStopRecording s
  | Second => (timerTick s, [])
  | RecordingStarted => (recordingStarted s, [])
  | RecordingSecond => (recordingTick s, [])
  end.

(** The events of a visit, handled one after the other. *)
Fixpoint run (s : State) (events : list Event) : State * list Command :=
  match events with
  | [] => (s, [])
  | e :: rest =>
      let '(s1, c1) := handle s e in
      let '(s2, c2) := run s1 rest in
      (s2, c1 ++ c2)
  end.

(** The answers of the [submitAnswer] requests among the commands, with the
    question number each was sent for. *)
Fixpoint requests (cmds : list Command) : list (nat * string) :=
  match cmds with
  | SubmitAnswer _ n a :: rest => (n, a) :: requests rest
  | _ :: rest => requests rest
  | [] => []
  end.

(** The number of seconds among the events. *)
Fixpoint seconds (events : list Event) : nat :=
  match events with
  | Second :: rest => S (seconds rest)
  | _ :: rest => seconds rest
  | [] => 0
  end.

End InterviewPage.

(** ** VoiceInterviewPage.jsx: the voice interview page *)

Module VoiceInterviewPage.

(** [formatTime]: format time as MM:SS. *)
Definition formatTime (seconds : nat) : string :=
  let mins := seconds / 60 in
  let secs := seconds mod 60 in
  JS.padStart (JS.toString mins) 2 "0" +:+ ":" +:+ JS.padStart (JS.toString secs) 2 "0".

(** What the component reads for a render: its own [isInitializing] and
    what the [useVoiceInterview] hook reports. *)
Record Props := {
  isInitializing : bool;
  isConnected : bool;
  error : option string;
  isComplete : bool;
  assessment : option Api.Assessment;
  questionNumber : nat
}.

(** The screen a render returns: the [if] chain of the component. *)
Inductive Screen :=
| Initializing
| ConnectionError (text : string)
| InterviewComplete (shown : option Api.Assessment)
| Live (questionNumber : nat).

Definition render (p : Props) : Screen :=
  if isInitializing p then Initializing
  else if JS.truthyProp (error p) then ConnectionError (default "" (error p))
  else if isComplete p then InterviewComplete (assessment p)
  else Live (questionNumber p).

(** A navigation scheduled with [setTimeout]. *)
Inductive Command :=
| NavigateAfter (milliseconds : nat) (path : string).

(** The effect on [isComplete] and [assessment]: handle interview
    completion. *)
Definition completionEffect (p : Props) : list Command :=
  match isComplete p, assessment p with
  | true, Some _ => [NavigateAfter 5000 "/results"]
  | _, _ => []
  end.

(** What the auto-start effect schedules with [setTimeout]. *)
Inductive Scheduled :=
| StartRecordingAfter (milliseconds : nat).

(** What the auto-start effect reads of the hook. *)
Record Connection := {
  connected : bool;
  recording : bool;
  complete : bool
}.

(** The effect that auto-starts the recording when connected, with the ref
    [hasStartedRecording]. *)
Definition autoStartEffect (hasStartedRecording : bool) (c : Connection)
  : bool * list Scheduled :=
  if connected c && negb (recording c) && negb (complete c) && negb hasStartedRecording
  then (true, [StartRecordingAfter 1000])
  else (hasStartedRecording, []).

(** The auto-start effect run at each of a sequence of renders. *)
Fixpoint autoStarts (hasStartedRecording : bool) (renders : list Connection)
  : bool * list Scheduled :=
  match renders with
  | [] => (hasStartedRecording, [])
  | c :: rest =>
      let '(r1, s1) := autoStartEffect hasStartedRecording c in
      let '(r2, s2) := autoStarts r1 rest in
      (r2, s1 ++ s2)
  end.

End VoiceInterviewPage.

(** ** Analytics.jsx: the statistics over past interviews *)

Module Analytics.

Import Api.

(** An entry of [topStrengths] and [commonWeaknesses]. *)
Record Tally := { name : string; count : nat }.

Record Stats := {
  totalInterviews : nat;
  averageScore : JS.Num;
  highestScore : JS.Num;
  lowestScore : JS.Num;
  topStrengths : list Tally;
  commonWeaknesses : list Tally
}.

(** The argument of [useState] for [stats]. *)
Definition initialStats : Stats := {|
  totalInterviews := 0;
  averageScore := JS.Fin 0;
  highestScore := JS.Fin 0;
  lowestScore := JS.Fin 0;
  topStrengths := [];
  commonWeaknesses := []
|}.

(** [parseInt(r.assessment?.candidate_score_percent || 0)]. *)
Definition scoreOf (r : Reply) : JS.Num :=
  JS.parseIntValue (orZeroValue (match assessment r with
                                 | Some a => candidate_score_percent a
                                 | None => None
                                 end)).

(** [map[key] = (map[key] || 0) + 1] on an object used as a counter; the
    entries are kept in the order the keys were first written, the order
    [Object.entries] lists keys that are not array indices. *)
Fixpoint bump (key : string) (map : list (string * nat)) : list (string * nat) :=
  match map with
  | [] => [(key, 1)]
  | (k, n) :: rest => if String.eqb k key then (k, n + 1) :: rest else (k, n) :: bump key rest
  end.

(** Puts an entry into a list sorted by falling count, behind the entries
    that count as much: [sort((a, b) => b[1] - a[1])] is stable. *)
Fixpoint insertByCount (e : string * nat) (sorted : list (string * nat)) : list (string * nat) :=
  match sorted with
  | [] => [e]
  | e' :: rest => if snd e' <? snd e then e :: sorted else e' :: insertByCount e rest
  end.

Definition sortByCount (entries : list (string * nat)) : list (string * nat) :=
  fold_left (fun sorted e => insertByCount e sorted) entries [].

(** [.sort(...).slice(0, 5).map(([name, count]) => ({ name, count }))]. *)
Definition topFive (map : list (string * nat)) : list Tally :=
  (fun e => {| name := fst e; count := snd e |}) <$> take 5 (sortByCount map).

Definition strengthsOf (r : Reply) : list string :=
  match assessment r with
  | Some a => default [] (strengths a)
  | None => []
  end.

(** [assessment.weaknesses || assessment.improvement_areas || []]: an
    array is truthy, an empty one too. *)
Definition weaknessesOf (r : Reply) : list string :=
  match assessment r with
  | Some a =>
      match weaknesses a with
      | Some l => l
      | None => default [] (improvement_areas a)
      end
  | None => []
  end.

(** [calculateStats(data)]: the value of [stats] after the call. *)
Definition calculateStats (data : option (list Reply)) (stats : Stats) : Stats :=
  match data with
  | None | Some [] => stats
  | Some data =>
      let scores := scoreOf <$> data in
      let totalInterviews := length data in
      let averageScore := JS.roundDiv (fold_left JS.add scores (JS.Fin 0)) totalInterviews in
      let highestScore := JS.Math_max scores in
      let lowestScore := JS.Math_min scores in
      let strengthsMap :=
        fold_left (fun m r => fold_left (fun m s => bump s m) (strengthsOf r) m) data [] in
      let weaknessesMap :=
        fold_left (fun m r => fold_left (fun m w => bump w m) (weaknessesOf r) m) data [] in
      {| totalInterviews := totalInterviews;
         averageScore := averageScore;
         highestScore := highestScore;
         lowestScore := lowestScore;
         topStrengths := topFive strengthsMap;
         commonWeaknesses := topFive weaknessesMap |}
  end.

(** [getScoreColor] of the analytics page. *)
Definition getScoreColor (score : Z) : string :=
  if (80 <=? score)%Z then "text-green-400 bg-green-500/20"
  else if (60 <=? score)%Z then "text-cyan-400 bg-cyan-500/20"
  else "text-red-400 bg-red-500/20".

(** What [getScoreTrend] returns when it returns an object. *)
Inductive Trend := Improving | Declining | Stable.

(** [getScoreTrend()], from the [results] and the [stats] of the page;
    [None] is [null]. *)
Definition getScoreTrend (results : list Reply) (stats : Stats) : option Trend :=
  if length results <? 2 then None
  else
    let recentScores := scoreOf <$> take 5 results in
    let avg := JS.divide (fold_left JS.add recentScores (JS.Fin 0)) (length recentScores) in
    if JS.gt avg (averageScore stats) then Some Improving
    else if JS.lt avg (averageScore stats) then Some Declining
    else Some Stable.

(** [map[key] || 0]: the count an object used as a counter holds for a key. *)
Fixpoint countOf (key : string) (map : list (string * nat)) : nat :=
  match map with
  | [] => 0
  | (k, n) :: rest => if String.eqb k key then n else countOf key rest
  end.

(** How often an item occurs in a list. *)
Fixpoint occurrences (key : string) (items : list string) : nat :=
  match items with
  | [] => 0
  | x :: rest => (if String.eqb x key then 1 else 0) + occurrences key rest
  end.

(** The object that [calculateStats] counts strengths or weaknesses in, after
    the [items] were counted into [map] in order. *)
Definition tally (items : list string) (map : list (string * nat)) : list (string * nat) :=
  fold_left (fun m s => bump s m) items map.

End Analytics.

(** ** InterviewResults.jsx: the results of one interview *)

Module InterviewResults.

Import Api.

Definition getScoreColor (score : Z) : string :=
  if (80 <=? score)%Z then "from-green-500 to-cyan-500"
  else if (60 <=? score)%Z then "from-cyan-500 to-blue-500"
  else if (40 <=? score)%Z then "from-yellow-500 to-orange-500"
  else "from-red-500 to-pink-500".

Definition getScoreLabel (score : Z) : string :=
  if (80 <=? score)%Z then "Excellent"
  else if (60 <=? score)%Z then "Good"
  else if (40 <=? score)%Z then "Fair"
  else "Needs Improvement".

(** The [useState] hooks of the component. *)
Record State := {
  result : option Result;
  loading : bool;
  error : string
}.

(** What the score circle of the results screen shows. *)
Record ScoreBadge := {
  gradient : string;
  percent : string;
  label : string
}.

Inductive Screen :=
| LoadingResults
| ResultsError (text : string)
| Results (score : Z) (badge : ScoreBadge) (shown : Assessment).

(** [result.assessment || {}]. *)
Definition assessmentOf (r : Result) : Assessment :=
  default emptyAssessment (assessment r).

(** [assessment.candidate_score_percent || 0]. *)
Definition scoreOf (r : Result) : Z :=
  orZero (candidate_score_percent (assessmentOf r)).

(** The screen a render returns. *)
Definition render (s : State) : Screen :=
  if loading s then LoadingResults
  else
    match result s with
    | Some r =>
        if JS.truthy (error s) then ResultsError (error s)
        else
          let score := scoreOf r in
          Results score
            {| gradient := getScoreColor score;
               percent := JS.toStringZ score +:+ "%";
               label := getScoreLabel score |}
            (assessmentOf r)
    | None => ResultsError (if JS.truthy (error s) then error s else "Results not found")
    end.

End InterviewResults.

(** ** InterviewHistory.jsx: the list of past interviews *)

Module InterviewHistory.

(** [getScoreColor] of the history page. *)
Definition getScoreColor (score : Z) : string :=
  if (80 <=? score)%Z then "text-green-400 bg-green-500/20 border-green-500/30"
  else if (60 <=? score)%Z then "text-cyan-400 bg-cyan-500/20 border-cyan-500/30"
  else if (40 <=? score)%Z then "text-yellow-400 bg-yellow-500/20 border-yellow-500/30"
  else "text-red-400 bg-red-500/20 border-red-500/30".

End InterviewHistory.

(** ** Dashboard.jsx: the statistics card and the upload of a resume *)

Module Dashboard.

Record Stats := {
  totalInterviews : nat;
  averageScore : JS.Num
}.

(** The argument of [useState] for [stats]. *)
Definition initialStats : Stats := {| totalInterviews := 0; averageScore := JS.Fin 0 |}.

(** [fetchStats], from what [getUserResults] resolved to: the value of
    [stats] afterwards. *)
Definition fetchStats (results : option (list Api.Reply)) (stats : Stats) : Stats :=
  match results with
  | None | Some [] => stats
  | Some results =>
      let scores := Analytics.scoreOf <$> results in
      let avgScore := JS.roundDiv (fold_left JS.add scores (JS.Fin 0)) (length results) in
      {| totalInterviews := length results; averageScore := avgScore |}
  end.

(** The text of the average score card. *)
Definition averageCard (stats : Stats) : string :=
  if 0 <? totalInterviews stats then JS.show (averageScore stats) +:+ "%" else "--".

(** A file picked for upload: its MIME type and its size in bytes. *)
Record File := { type : string; size : N }.

(** How the upload goes once the checks are passed: no user is stored (reading
    [user.userId] throws), the request fails, perhaps with a detail, or it
    succeeds. *)
Inductive Upload :=
| NoUser
| UploadFailed (detail : option string)
| Uploaded.

Inductive Command :=
| UploadResume (file : File)
| RefreshResumeStatus
| Alert (text : string)
| LogError.

(** The [useState] hooks of the upload. *)
Record UploadState := {
  showUploadModal : bool;
  uploading : bool;
  uploadError : option string
}.

Definition failureText (detail : option string) : string :=
  if JS.truthyProp detail then default "" detail
  else "Failed to upload resume. Please try again.".

(** [handleFileUpload(file)], with how the upload goes. *)
Definition handleFileUpload (file : option File) (how : Upload) (s : UploadState)
  : UploadState * list Command :=
  match file with
  | None => (s, [])
  | Some f =>
      if negb (String.eqb (type f) "application/pdf") then
        ({| showUploadModal := showUploadModal s; uploading := uploading s;
            uploadError := Some "Please upload a PDF file" |}, [])
      else if (10 * 1024 * 1024 <? size f)%N then
        ({| showUploadModal := showUploadModal s; uploading := uploading s;
            uploadError := Some "File size must be less than 10MB" |}, [])
      else
        match how with
        | Uploaded =>
            ({| showUploadModal := false; uploading := false; uploadError := None |},
             [UploadResume f; RefreshResumeStatus; Alert "Resume uploaded successfully!"])
        | UploadFailed detail =>
            ({| showUploadModal := showUploadModal s; uploading := false;
                uploadError := Some (failureText detail) |},
             [UploadResume f; LogError])
        | NoUser =>
            ({| showUploadModal := showUploadModal s; uploading := false;
                uploadError := Some (failureText None) |},
             [LogError])
        end
  end.

(** The files among the commands that were sent to the server. *)
Fixpoint uploads (cmds : list Command) : list File :=
  match cmds with
  | UploadResume f :: rest => f :: uploads rest
  | _ :: rest => uploads rest
  | [] => []
  end.

End Dashboard.

(** ** ResumeManagement.jsx: the upload of a resume *)

Module ResumeManagement.

Inductive Command :=
| UploadResume (file : Dashboard.File)
| RefreshResumeStatus
| HideSuccessAfter (milliseconds : nat)
| LogError.

(** The [useState] hooks of the upload. *)
Record UploadState := {
  uploading : bool;
  uploadError : option string;
  uploadSuccess : bool
}.

(** [handleFileUpload(file)], with how the upload goes. *)
Definition handleFileUpload (file : option Dashboard.File) (how : Dashboard.Upload)
    (s : UploadState) : UploadState * list Command :=
  match file with
  | None => (s, [])
  | Some f =>
      if negb (String.eqb (Dashboard.type f) "application/pdf") then
        ({| uploading := uploading s; uploadError := Some "Please upload a PDF file";
            uploadSuccess := uploadSuccess s |}, [])
      else if (10 * 1024 * 1024 <? Dashboard.size f)%N then
        ({| uploading := uploading s;
            uploadError := Some "File size must be less than 10MB";
            uploadSuccess := uploadSuccess s |}, [])
      else
        match how with
        | Dashboard.Uploaded =>
            ({| uploading := false; uploadError := None; uploadSuccess := true |},
             [UploadResume f; RefreshResumeStatus; HideSuccessAfter 3000])
        | Dashboard.UploadFailed detail =>
            ({| uploading := false; uploadError := Some (Dashboard.failureText detail);
                uploadSuccess := false |},
             [UploadResume f; LogError])
        | Dashboard.NoUser =>
            ({| uploading := false; uploadError := Some (Dashboard.failureText None);
                uploadSuccess := false |},
             [LogError])
        end
  end.

(** The files among the commands that were sent to the server. *)
Fixpoint uploads (cmds : list Command) : list Dashboard.File :=
  match cmds with
  | UploadResume f :: rest => f :: uploads rest
  | _ :: rest => uploads rest
  | [] => []
  end.

End ResumeManagement.

(** ** JobBoard.jsx: the pages of the job list *)

Module JobBoard.

(** The click on Previous: [setPage(p => Math.max(1, p - 1))]. *)
Definition previousPage (page : Z) : Z := Z.max 1 (page - 1).

(** The click on Next: [setPage(p => Math.min(totalPages, p + 1))]. *)
Definition nextPage (totalPages page : Z) : Z := Z.min totalPages (page + 1).

Inductive Click := Previous | Next.

Definition click (totalPages page : Z) (c : Click) : Z :=
  match c with
  | Previous => previousPage page
  | Next => nextPage totalPages page
  end.

End JobBoard.

(** ** The audio ingestion buffer (specification, section 4.1) *)

Module AudioIngestion.

(** Modelled from the spec: the error of the ingestion contract.  The code
    that receives audio frames (the WebSocket handler and the
    speech-to-text service of the back end) is not among the sources. *)
Inductive Error := OutOfOrder.

(** Modelled from the spec: what [submit] answers, acceptance or failure. *)
Inductive Reply :=
| Accepted
| Failed (e : Error).

(** Modelled from the spec: the state of the ingestion buffer, which is
    missing from the sources.  Per session it keeps the sequence number it
    expects next; there is no reordering buffer, and what it accepted it has
    forwarded to the transcription collaborator, in order. *)
Record Buffer := {
  expected : gmap string nat;
  forwarded : list (string * list Byte.byte)
}.

(** Modelled from the spec: a buffer that has accepted nothing. *)
Definition empty : Buffer := {| expected := ∅; forwarded := [] |}.

(** Modelled from the spec: the expected next value of a session, 0 before
    its first chunk. *)
Definition expectedSeq (b : Buffer) (sessionId : string) : nat :=
  default 0 (expected b !! sessionId).

(** Modelled from the spec: [submit(sessionId, seq, bytes)] fails with
    [OutOfOrder] if [seq] is not the expected next value; otherwise the bytes
    are forwarded as soon as received and the next value is expected. *)
Definition submit (sessionId : string) (seq : nat) (bytes : list Byte.byte) (b : Buffer)
  : Reply * Buffer :=
  if decide (seq = expectedSeq b sessionId) then
    (Accepted, {| expected := <[sessionId := S seq]> (expected b);
                  forwarded := forwarded b ++ [(sessionId, bytes)] |})
  else (Failed OutOfOrder, b).

End AudioIngestion.

(** ** The turn-taking state machine (specification, section 4.3) *)

Module Orchestrator.

(** Modelled from the spec: the states of a session.  The session manager of
    the back end, which owns them, is not among the sources. *)
Inductive Phase :=
| Idle
| Priming
| AskingQuestion
| ListeningForAnswer
| EvaluatingAnswer
| Closing
| Completed
| Failed.

#[global] Instance Phase_eq_dec : EqDecision Phase.
Proof. solve_decision. Defined.

(** Modelled from the spec: the [config] of a session. *)
Record Config := {
  minAnswerSeconds : nat;
  maxQuestions : nat;
  idleTimeoutSeconds : nat;
  endpointSilenceMs : nat
}.

(** Modelled from the spec: the [evaluation] of an exchange. *)
Record Evaluation := { confidence : nat; clarity : nat; relevance : nat }.

(** Modelled from the spec: one question and answer pair of the exchange
    log (the time stamps are left out). *)
Record QAExchange := {
  questionText : string;
  answerText : string;
  evaluation : option Evaluation
}.

(** Modelled from the spec: what [summarize] returns. *)
Record Assessment := {
  score : nat;
  strengths : list string;
  weaknesses : list string;
  recommendations : list string;
  summary : string
}.

(** Modelled from the spec: the session owned by its state-machine actor. *)
Record Session := {
  state : Phase;
  questionIndex : nat;
  config : Config;
  pendingQuestion : option string;
  log : list QAExchange;
  persistencePending : bool
}.

(** Modelled from the spec: the events of a session's inbox. *)
Inductive Event :=
| Start
| ContextLoaded (firstQuestion : string)
| ContextFailed
| QuestionPlayed
| UtteranceFinal (text : string)
| StopRecording (elapsedSeconds : nat) (text : string)
| TranscriptionExhausted
| PolicyResult (evaluated : option Evaluation) (next : option string)
| EndInterview
| IdleTimeout
| FinalizerDone (result : Assessment) (persisted : bool)
| FinalizerFailed.

(** Modelled from the spec: the reasons of the terminal [error] event. *)
Inductive Failure :=
| ContextUnavailable
| TranscriptionUnavailable
| FinalizerError.

(** Modelled from the spec: the outbound events of the connection boundary
    ([question], [status], [assessment], [error]). *)
Inductive Output :=
| QuestionEvent (index : nat) (text : string)
| AnswerTooShort
| AssessmentEvent (result : Assessment)
| ErrorEvent (reason : Failure).

(** Modelled from the spec: a session as [create] makes it. *)
Definition create (cfg : Config) : Session := {|
  state := Idle;
  questionIndex := 0;
  config := cfg;
  pendingQuestion := None;
  log := [];
  persistencePending := false
|}.

(** Modelled from the spec: the terminal states. *)
Definition terminal (p : Phase) : bool :=
  match p with Completed | Failed => true | _ => false end.

(** Modelled from the spec: a change of state that keeps everything else. *)
Definition enter (p : Phase) (s : Session) : Session := {|
  state := p;
  questionIndex := questionIndex s;
  config := config s;
  pendingQuestion := pendingQuestion s;
  log := log s;
  persistencePending := persistencePending s
|}.

(** Modelled from the spec: a finalized answer is consumed into an exchange
    appended to the log, and the answer is handed to the policy bridge. *)
Definition finalizeAnswer (text : string) (s : Session) : Session := {|
  state := EvaluatingAnswer;
  questionIndex := questionIndex s;
  config := config s;
  pendingQuestion := pendingQuestion s;
  log := log s ++ [ {| questionText := default "" (pendingQuestion s);
                       answerText := text;
                       evaluation := None |} ];
  persistencePending := persistencePending s
|}.

(** Modelled from the spec: the evaluation is filled into the last exchange;
    a failed evaluation leaves it unset. *)
Definition recordEvaluation (ev : option Evaluation) (l : list QAExchange) : list QAExchange :=
  match reverse l with
  | x :: before =>
      reverse before ++ [ {| questionText := questionText x;
                             answerText := answerText x;
                             evaluation := ev |} ]
  | [] => []
  end.

(** Modelled from the spec: after the evaluation, [AskingQuestion] with
    [questionIndex+1] if under [maxQuestions], [Closing] otherwise; the
    policy engine is free to end earlier, which it does by offering no next
    question. *)
Definition afterEvaluation (ev : option Evaluation) (next : option string) (s : Session)
  : Session * list Output :=
  let l := recordEvaluation ev (log s) in
  match next with
  | Some q =>
      if questionIndex s + 1 <? maxQuestions (config s) then
        ({| state := AskingQuestion;
            questionIndex := questionIndex s + 1;
            config := config s;
            pendingQuestion := Some q;
            log := l;
            persistencePending := persistencePending s |},
         [QuestionEvent (questionIndex s + 1) q])
      else
        ({| state := Closing; questionIndex := questionIndex s; config := config s;
            pendingQuestion := None; log := l;
            persistencePending := persistencePending s |}, [])
  | None =>
      ({| state := Closing; questionIndex := questionIndex s; config := config s;
          pendingQuestion := None; log := l;
          persistencePending := persistencePending s |}, [])
  end.

(** Modelled from the spec: the transition table of section 4.3, one event
    at a time.  An end command or an idle time-out is honoured from any
    state that is neither terminal nor already closing; any event that does
    not apply to the current state is discarded. *)
Definition step (s : Session) (e : Event) : Session * list Output :=
  match state s, e with
  | Idle, Start => (enter Priming s, [])
  | Priming, ContextLoaded q =>
      ({| state := AskingQuestion; questionIndex := questionIndex s; config := config s;
          pendingQuestion := Some q; log := log s;
          persistencePending := persistencePending s |},
       [QuestionEvent (questionIndex s) q])
  | Priming, ContextFailed => (enter Failed s, [ErrorEvent ContextUnavailable])
  | AskingQuestion, QuestionPlayed => (enter ListeningForAnswer s, [])
  | ListeningForAnswer, UtteranceFinal text => (finalizeAnswer text s, [])
  | ListeningForAnswer, StopRecording elapsed text =>
      if elapsed <? minAnswerSeconds (config s) then (s, [AnswerTooShort])
      else (finalizeAnswer text s, [])
  | ListeningForAnswer, TranscriptionExhausted =>
      (enter Failed s, [ErrorEvent TranscriptionUnavailable])
  | EvaluatingAnswer, PolicyResult ev next => afterEvaluation ev next s
  | Closing, FinalizerDone a persisted =>
      ({| state := Completed; questionIndex := questionIndex s; config := config s;
          pendingQuestion := pendingQuestion s; log := log s;
          persistencePending := negb persisted |},
       [AssessmentEvent a])
  | Closing, FinalizerFailed => (enter Failed s, [ErrorEvent FinalizerError])
  | (Idle | Priming | AskingQuestion | ListeningForAnswer | EvaluatingAnswer),
    (EndInterview | IdleTimeout) => (enter Closing s, [])
  | _, _ => (s, [])
  end.

(** Modelled from the spec: the inbox is consumed in order, one transition
    at a time; the outputs are what the connection sees. *)
Fixpoint run (s : Session) (events : list Event) : Session * list Output :=
  match events with
  | [] => (s, [])
  | e :: rest =>
      let '(s1, out1) := step s e in
      let '(s2, out2) := run s1 rest in
      (s2, out1 ++ out2)
  end.

(** Modelled from the spec: the [questionIndex] values of the [question]
    events of a list of outputs. *)
Fixpoint questionIndices (outs : list Output) : list nat :=
  match outs with
  | QuestionEvent i _ :: rest => i :: questionIndices rest
  | _ :: rest => questionIndices rest
  | [] => []
  end.

(** Modelled from the spec: the number of [assessment] events. *)
Fixpoint assessments (outs : list Output) : nat :=
  match outs with
  | AssessmentEvent _ :: rest => S (assessments rest)
  | _ :: rest => assessments rest
  | [] => 0
  end.

(** Modelled from the spec: the number of [error] events. *)
Fixpoint errors (outs : list Output) : nat :=
  match outs with
  | ErrorEvent _ :: rest => S (errors rest)
  | _ :: rest => errors rest
  | [] => 0
  end.

(** Modelled from the spec: the configuration of the scenarios of section 8,
    with [maxQuestions] 3 and answers of at least 4 seconds (the spec names no
    default for the idle time-out). *)
Definition scenarioConfig : Config := {|
  minAnswerSeconds := 4;
  maxQuestions := 3;
  idleTimeoutSeconds := 600;
  endpointSilenceMs := 3000
|}.

(** Modelled from the spec: the events of a first turn, up to the answer that
    is handed over for evaluation. *)
Definition firstTurn : list Event :=
  [Start; ContextLoaded "Tell me about your last project."; QuestionPlayed;
   StopRecording 6 "I built a compiler."].

(** Modelled from the spec: a further turn, from the evaluation of the
    previous answer to the next answer. *)
Definition furtherTurn (question answer : string) : list Event :=
  [PolicyResult (Some {| confidence := 7; clarity := 8; relevance := 9 |}) (Some question);
   QuestionPlayed; StopRecording 5 answer].

(** Modelled from the spec: the assessment of the scenarios. *)
Definition scenarioAssessment : Assessment := {|
  score := 72;
  strengths := ["Clear answers"];
  weaknesses := [];
  recommendations := [];
  summary := "A solid interview."
|}.

(** The invariant that the proofs below carry along a run: what holds of a
    session created with [cfg] and of the outputs it has produced so far. *)
Definition invariant (cfg : Config) (s : Session) (outs : list Output) : Prop :=
  let asked := length (questionIndices outs) in
  config s = cfg
  /\ questionIndices outs = seq 0 asked
  /\ asked <= Nat.max 1 (maxQuestions cfg)
  /\ length (log s) <= asked <= S (length (log s))
  /\ assessments outs = (if decide (state s = Completed) then 1 else 0)
  /\ errors outs = (if decide (state s = Failed) then 1 else 0)
  /\ match state s with
     | Idle | Priming => asked = 0 /\ questionIndex s = 0
     | AskingQuestion | ListeningForAnswer =>
         asked = questionIndex s + 1 /\ length (log s) = questionIndex s
     | EvaluatingAnswer =>
         asked = questionIndex s + 1 /\ length (log s) = questionIndex s + 1
     | Closing | Completed | Failed => True
     end.

End Orchestrator.

(** * Properties *)

(** ** Decimal numerals *)

Section Numerals.

Local Open Scope nat_scope.

Lemma string_length_app (a b : string) :
  String.length (a +:+ b) = String.length a + String.length b.
Proof. induction a as [|c a IH]; simpl; [reflexivity | now rewrite IH]. Qed.

Lemma allDigits_app (a b : string) :
  JS.allDigits (a +:+ b) = JS.allDigits a && JS.allDigits b.
Proof.
  induction a as [|c a IH]; simpl; [reflexivity|].
  rewrite IH. now rewrite andb_assoc.
Qed.

Lemma allDigits_string_of_uint (d : Decimal.uint) :
  JS.allDigits (NilEmpty.string_of_uint d) = true.
Proof. induction d; simpl; auto. Qed.

Lemma readDigits_string_of_uint (d : Decimal.uint) (acc : nat) :
  JS.readDigits 10 (NilEmpty.string_of_uint d) acc true = Some (Nat.of_uint_acc d acc).
Proof.
  revert acc. induction d; intros acc; cbn [NilEmpty.string_of_uint JS.readDigits Nat.of_uint_acc];
    [reflexivity | ..];
    (match goal with
     | |- context [JS.digitValue 10 ?c] =>
         change (JS.digitValue 10 c) with (Some (nat_of_ascii c - 48))
     end;
     cbv beta iota; rewrite IHd; f_equal; f_equal;
     rewrite Nat.tail_mul_spec; cbn [nat_of_ascii]; simpl Nat.sub; lia).
Qed.

Lemma to_uint_nonnil (n : nat) : Nat.to_uint n <> Decimal.Nil.
Proof.
  rewrite <- (DecimalNat.Unsigned.of_to n) at 1.
  rewrite DecimalNat.Unsigned.to_of.
  apply DecimalFacts.unorm_nonnil.
Qed.

Lemma allDigits_toString (n : nat) : JS.allDigits (JS.toString n) = true.
Proof. apply allDigits_string_of_uint. Qed.

Lemma toString_nonempty (n : nat) : 1 <= String.length (JS.toString n).
Proof.
  unfold JS.toString. pose proof (to_uint_nonnil n) as Hn.
  destruct (Nat.to_uint n); simpl; try lia. congruence.
Qed.

Lemma readDigits_toString (n : nat) : JS.readDigits 10 (JS.toString n) 0 false = Some n.
Proof.
  pose proof (readDigits_string_of_uint (Nat.to_uint n) 0) as Hr.
  pose proof (allDigits_toString n) as Hd.
  pose proof (toString_nonempty n) as Hl.
  unfold JS.toString in *.
  change (Nat.of_uint_acc (Nat.to_uint n) 0) with (Nat.of_uint (Nat.to_uint n)) in Hr.
  rewrite DecimalNat.Unsigned.of_to in Hr.
  destruct (NilEmpty.string_of_uint (Nat.to_uint n)) as [|c s]; simpl in Hl; [lia|].
  rewrite <- Hr. simpl in Hd |- *.
  apply andb_prop in Hd as [Hc _]. unfold JS.isDigit in Hc.
  unfold JS.digitValue. rewrite Hc. reflexivity.
Qed.

(** Reading a numeral back gives the number. *)
Lemma decimalValue_toString (n : nat) : JS.decimalValue (JS.toString n) = Some n.
Proof.
  unfold JS.decimalValue. rewrite allDigits_toString. apply readDigits_toString.
Qed.

(** A zero in front does not change what a field of digits shows. *)
Lemma decimalValue_zero (s : string) (n : nat) :
  JS.decimalValue s = Some n -> JS.decimalValue (String "0" s) = Some n.
Proof.
  unfold JS.decimalValue. simpl JS.allDigits.
  change (JS.isDigit "0") with true. simpl andb.
  destruct (JS.allDigits s) eqn:Hd; [|discriminate].
  intros Hr. cbn [JS.readDigits].
  change (JS.digitValue 10 "0") with (Some 0). cbv beta iota.
  destruct s as [|c s]; [discriminate|].
  simpl in Hd. apply andb_prop in Hd as [Hc _].
  revert Hr. simpl. unfold JS.digitValue. unfold JS.isDigit in Hc. rewrite Hc. auto.
Qed.

Lemma toString_length_two (n : nat) : n < 100 -> String.length (JS.toString n) <= 2.
Proof.
  intros Hn.
  assert (Hall : forallb (fun k => String.length (JS.toString k) <=? 2) (seq 0 100) = true)
    by (vm_compute; reflexivity).
  rewrite List.forallb_forall in Hall.
  specialize (Hall n). rewrite Nat.leb_le in Hall. apply Hall.
  apply List.in_seq. lia.
Qed.

(** [padStart(2, '0')] on a numeral: one digit gets a zero in front, two or
    more digits stay. *)
Lemma padStart_two (s : string) :
  1 <= String.length s ->
  JS.padStart s 2 "0" = if 2 <=? String.length s then s else String "0" s.
Proof.
  intros Hl. unfold JS.padStart.
  destruct (2 <=? String.length s) eqn:H2; [reflexivity|].
  apply Nat.leb_gt in H2.
  replace (2 - String.length s) with 1 by lia. reflexivity.
Qed.

Lemma padStart_two_length (s : string) :
  1 <= String.length s ->
  String.length (JS.padStart s 2 "0") = Nat.max 2 (String.length s).
Proof.
  intros Hl. rewrite padStart_two by exact Hl.
  destruct (2 <=? String.length s) eqn:H2.
  - apply Nat.leb_le in H2. lia.
  - apply Nat.leb_gt in H2. simpl. lia.
Qed.

Lemma padStart_two_digits (n : nat) :
  JS.allDigits (JS.padStart (JS.toString n) 2 "0") = true.
Proof.
  rewrite padStart_two by apply toString_nonempty.
  destruct (2 <=? _); simpl; apply allDigits_toString.
Qed.

Lemma padStart_two_value (n : nat) :
  JS.decimalValue (JS.padStart (JS.toString n) 2 "0") = Some n.
Proof.
  rewrite padStart_two by apply toString_nonempty.
  destruct (2 <=? _).
  - apply decimalValue_toString.
  - apply decimalValue_zero, decimalValue_toString.
Qed.

End Numerals.

(** ** The interview clock *)

(** C8. For every number of seconds [s], [formatTime s] is a minutes field,
    a colon and a seconds field.  Both fields hold decimal digits only and at
    least two of them; the seconds field has exactly two digits and shows
    [s mod 60], which is below 60; the minutes field shows [s / 60] and gets a
    zero in front only when it would have one digit; and the text interview
    page and the voice interview page format every [s] alike. *)
Theorem formatTime_MM_SS (s : nat) :
  exists mm ss : string,
    InterviewPage.formatTime s = mm +:+ ":" +:+ ss
    /\ JS.allDigits mm = true /\ JS.allDigits ss = true
    /\ String.length mm = Nat.max 2 (String.length (JS.toString (s / 60)))
    /\ String.length ss = 2
    /\ JS.decimalValue mm = Some (s / 60)
    /\ JS.decimalValue ss = Some (s mod 60)
    /\ s mod 60 < 60
    /\ VoiceInterviewPage.formatTime s = InterviewPage.formatTime s.
Proof.
  exists (JS.padStart (JS.toString (s / 60)) 2 "0"),
         (JS.padStart (JS.toString (s mod 60)) 2 "0").
  assert (Hlt : s mod 60 < 60) by (apply Nat.mod_upper_bound; lia).
  repeat split.
  - apply padStart_two_digits.
  - apply padStart_two_digits.
  - apply padStart_two_length, toString_nonempty.
  - rewrite padStart_two_length by apply toString_nonempty.
    pose proof (toString_length_two (s mod 60)) as H2.
    pose proof (toString_nonempty (s mod 60)). lia.
  - apply padStart_two_value.
  - apply padStart_two_value.
  - exact Hlt.
Qed.

(** ** The text interview page *)

Section TextInterview.

Import InterviewPage.

(** The recording timer counts the seconds since the recording started. *)
Lemma recordingDuration_ticks (s : State) (k : nat) :
  recordingDuration (Nat.iter k recordingTick (recordingStarted s)) = k
  /\ isRecording (Nat.iter k recordingTick (recordingStarted s)) = true.
Proof.
  induction k as [|k [IHd IHr]]; [split; reflexivity|].
  simpl Nat.iter. unfold recordingTick at 1 3. rewrite IHr. simpl. split; congruence.
Qed.

(** A recording of four seconds or more is stopped. *)
Lemma long_recording_stopped (s : State) :
  MIN_RECORDING_DURATION <= recordingDuration s ->
  handleStopRecording s = (s, [StopRecording]).
Proof.
  intros H. unfold handleStopRecording.
  destruct (recordingDuration s <? MIN_RECORDING_DURATION) eqn:E; [|reflexivity].
  apply Nat.ltb_lt in E. lia.
Qed.

(** What [handleSend] does when its guard lets the answer through. *)
Lemma handleSend_guard (s : State) (o : Outcome) :
  JS.trim (input s) <> "" -> loading s = false -> interviewEnded s = false ->
  negb (JS.truthy (JS.trim (input s))) || loading s || interviewEnded s = false.
Proof.
  intros Hi Hl He. rewrite Hl, He.
  destruct (JS.trim (input s)); [congruence | reflexivity].
Qed.

(** When the response offers a next question the page shows it and takes
    its number from the response. *)
Lemma handleSend_next_question (s : State) (r : Response) (q : string) :
  JS.trim (input s) <> "" -> loading s = false -> interviewEnded s = false ->
  nextQuestion r = Some q -> q <> "" ->
  let s' := fst (handleSend s (Resolved r)) in
  currentQuestionNumber s' = nextQuestionNumber r
  /\ interviewEnded s' = false
  /\ messages s' = messages s ++ [ {| sender := user; text := JS.trim (input s) |};
                                    {| sender := ai; text := q |} ].
Proof.
  intros Hi Hl He Hq Hne. unfold handleSend.
  rewrite (handleSend_guard s (Resolved r) Hi Hl He), Hq.
  destruct q; [congruence|]. simpl. rewrite He, <- app_assoc. auto.
Qed.

(** When the response offers no next question the page ends the
    interview. *)
Lemma handleSend_closing (s : State) (r : Response) :
  JS.trim (input s) <> "" -> loading s = false -> interviewEnded s = false ->
  JS.truthyProp (nextQuestion r) = false ->
  let s' := fst (handleSend s (Resolved r)) in
  currentQuestionNumber s' = currentQuestionNumber s /\ interviewEnded s' = true.
Proof.
  intros Hi Hl He Hq. unfold handleSend.
  rewrite (handleSend_guard s (Resolved r) Hi Hl He), Hq. simpl. auto.
Qed.

(** The question number after [handleSend]: the one the response carries
    when the answer went through and a next question came back, the old one in
    every other case. *)
Lemma handleSend_question_number (s : State) (o : Outcome) :
  currentQuestionNumber (fst (handleSend s o))
  = match o with
    | Resolved r =>
        if accepts s && JS.truthyProp (nextQuestion r) then nextQuestionNumber r
        else currentQuestionNumber s
    | Rejected => currentQuestionNumber s
    end.
Proof.
  unfold handleSend, accepts.
  destruct (negb (JS.truthy (JS.trim (input s))) || loading s || interviewEnded s);
    simpl; [destruct o; reflexivity|].
  destruct o as [r|]; [|reflexivity].
  destruct (JS.truthyProp (nextQuestion r)); reflexivity.
Qed.


End TextInterview.

(** C1. A click on the stop button while the recording has lasted less than
    [MIN_RECORDING_DURATION] (4) seconds is answered with the too-short alert
    and nothing else: no recording is stopped, so no audio is handed over for
    transcription and no answer text comes of it, and the page state (the
    recording, its duration, the input, the transcript and the current
    question number) is what it was, ready for the same turn.  So it is for a
    click at any number of seconds below 4 after a recording has started. *)
Theorem short_recording_rejected (s : InterviewPage.State) :
  InterviewPage.recordingDuration s < InterviewPage.MIN_RECORDING_DURATION ->
  InterviewPage.handleStopRecording s
    = (s, [InterviewPage.Alert (InterviewPage.tooShortAlert (InterviewPage.recordingDuration s))])
  /\ InterviewPage.stops (snd (InterviewPage.handleStopRecording s)) = false
  /\ InterviewPage.submissions (snd (InterviewPage.handleStopRecording s)) = 0
  /\ InterviewPage.currentQuestionNumber (fst (InterviewPage.handleStopRecording s))
      = InterviewPage.currentQuestionNumber s
  /\ InterviewPage.isRecording (fst (InterviewPage.handleStopRecording s))
      = InterviewPage.isRecording s
  /\ InterviewPage.audioBlob (fst (InterviewPage.handleStopRecording s))
      = InterviewPage.audioBlob s
  /\ InterviewPage.input (fst (InterviewPage.handleStopRecording s)) = InterviewPage.input s
  /\ InterviewPage.messages (fst (InterviewPage.handleStopRecording s))
      = InterviewPage.messages s
  /\ (forall (before : InterviewPage.State) (elapsed : nat),
        elapsed < InterviewPage.MIN_RECORDING_DURATION ->
        let recording :=
          Nat.iter elapsed InterviewPage.recordingTick
            (InterviewPage.recordingStarted before) in
        InterviewPage.handleStopRecording recording
        = (recording, [InterviewPage.Alert (InterviewPage.tooShortAlert elapsed)])).
Proof.
  intros H. split.
  { unfold InterviewPage.handleStopRecording.
    apply Nat.ltb_lt in H. rewrite H. reflexivity. }
  split; [|split; [|split; [|split; [|split; [|split; [|split]]]]]];
    try (unfold InterviewPage.handleStopRecording;
         pose proof H as Hb; apply Nat.ltb_lt in Hb; rewrite Hb; reflexivity).
  intros before elapsed He recording.
  destruct (recordingDuration_ticks before elapsed) as [Hd _].
  fold recording in Hd.
  unfold InterviewPage.handleStopRecording. rewrite Hd.
  apply Nat.ltb_lt in He. rewrite He. reflexivity.
Qed.

(** The stop button clicked two seconds into a recording. *)
Lemma short_recording_rejected_witness :
  let s := Nat.iter 2 InterviewPage.recordingTick
             (InterviewPage.recordingStarted InterviewPage.asked) in
  InterviewPage.recordingDuration s = 2
  /\ InterviewPage.handleStopRecording s
      = (s, [InterviewPage.Alert "Please record for at least 4 seconds. Current: 2s"]).
Proof.
  split; [reflexivity|].
  destruct (short_recording_rejected
              (Nat.iter 2 InterviewPage.recordingTick
                 (InterviewPage.recordingStarted InterviewPage.asked)))
    as [Hrejected _]; [vm_compute; lia|].
  exact Hrejected.
Defined.




(** C4, as the page has it.  When the request of an answer fails, the page
    does not repeat it and shows no question in its place: it has issued the
    one request, it appends and speaks the apology that asks the candidate to
    try again, and it leaves the current question number, the end-of-interview
    flag and the error of the page as they were, with [loading] cleared; so a
    failed request neither advances nor ends nor fails the interview. *)
Theorem failed_request_keeps_turn (s : InterviewPage.State) :
  JS.trim (InterviewPage.input s) <> "" ->
  InterviewPage.loading s = false ->
  InterviewPage.interviewEnded s = false ->
  let s' := fst (InterviewPage.handleSend s InterviewPage.Rejected) in
  let cmds := snd (InterviewPage.handleSend s InterviewPage.Rejected) in
  cmds = [InterviewPage.SubmitAnswer (InterviewPage.sessionId s)
            (InterviewPage.currentQuestionNumber s) (JS.trim (InterviewPage.input s));
          InterviewPage.LogError "Submit answer error:";
          InterviewPage.Speak InterviewPage.apology]
  /\ InterviewPage.submissions cmds = 1
  /\ InterviewPage.messages s'
      = InterviewPage.messages s
        ++ [ {| InterviewPage.sender := InterviewPage.user;
                InterviewPage.text := JS.trim (InterviewPage.input s) |};
             {| InterviewPage.sender := InterviewPage.ai;
                InterviewPage.text := InterviewPage.apology |} ]
  /\ InterviewPage.currentQuestionNumber s' = InterviewPage.currentQuestionNumber s
  /\ InterviewPage.interviewEnded s' = false
  /\ InterviewPage.error s' = InterviewPage.error s
  /\ InterviewPage.loading s' = false.
Proof.
  intros Hi Hl He. unfold InterviewPage.handleSend.
  rewrite (handleSend_guard s InterviewPage.Rejected Hi Hl He).
  simpl. rewrite He, <- app_assoc. repeat split.
Qed.

(** The request of the first answer fails. *)
Lemma failed_request_keeps_turn_witness :
  InterviewPage.currentQuestionNumber
    (fst (InterviewPage.handleSend InterviewPage.answering InterviewPage.Rejected)) = 1
  /\ InterviewPage.interviewEnded
       (fst (InterviewPage.handleSend InterviewPage.answering InterviewPage.Rejected)) = false.
Proof.
  pose proof (failed_request_keeps_turn InterviewPage.answering) as H.
  simpl in H.
  destruct H as (_ & _ & _ & Hn & He & _); [discriminate | reflexivity | reflexivity |].
  split; [exact Hn | exact He].
Defined.

(** C4, as the specification words it, fails on the page.  The request of
    the first answer fails once: the page has issued one request, not two;
    the message it shows is the apology, not a question; and the current
    question number is still 1. *)
Lemma failed_request_not_retried :
  let result := InterviewPage.handleSend InterviewPage.answering InterviewPage.Rejected in
  InterviewPage.submissions (snd result) = 1
  /\ last (InterviewPage.messages (fst result))
      = Some {| InterviewPage.sender := InterviewPage.ai;
                InterviewPage.text :=
                  "Sorry, there was an error processing your answer. Please try again." |}
  /\ InterviewPage.currentQuestionNumber (fst result)
      = InterviewPage.currentQuestionNumber InterviewPage.answering
  /\ ~ (InterviewPage.submissions (snd result) = 2
        /\ InterviewPage.currentQuestionNumber (fst result)
           = InterviewPage.currentQuestionNumber InterviewPage.answering + 1).
Proof.
  vm_compute. repeat split; intros [H _]; discriminate.
Qed.

(** ** The voice interview page *)

Section VoiceInterview.

Import VoiceInterviewPage.

(** Once initialized, the page shows the error screen whenever the hook
    reports an error, also when the interview is complete. *)
Lemma render_error_first (p : Props) (text : string) :
  isInitializing p = false -> error p = Some text -> text <> "" ->
  render p = ConnectionError text.
Proof.
  intros Hi He Hne. unfold render. rewrite Hi, He.
  destruct text; [congruence | reflexivity].
Qed.

(** Without an error, the page shows the completion screen exactly when the
    interview is complete. *)
Lemma render_complete (p : Props) :
  isInitializing p = false -> JS.truthyProp (error p) = false ->
  render p = if isComplete p then InterviewComplete (assessment p) else Live (questionNumber p).
Proof. intros Hi He. unfold render. now rewrite Hi, He. Qed.

(** The navigation to the results is scheduled exactly when the interview is
    complete and its assessment has arrived. *)
Lemma completionEffect_scheduled (p : Props) :
  completionEffect p = [NavigateAfter 5000 "/results"]
  <-> isComplete p = true /\ is_Some (assessment p).
Proof.
  unfold completionEffect.
  destruct (isComplete p), (assessment p); split; intros H;
    try discriminate H; try reflexivity; try (split; eauto; fail);
    destruct H as [H1 [x H2]]; discriminate.
Qed.

End VoiceInterview.

(** ** The turn-taking state machine *)

Section TurnTaking.

Import Orchestrator.

Lemma questionIndices_app (a b : list Output) :
  questionIndices (a ++ b) = questionIndices a ++ questionIndices b.
Proof.
  induction a as [|o a IH]; [reflexivity|].
  destruct o; simpl; rewrite IH; reflexivity.
Qed.

Lemma assessments_app (a b : list Output) :
  assessments (a ++ b) = assessments a + assessments b.
Proof.
  induction a as [|o a IH]; [reflexivity|].
  destruct o; simpl; rewrite IH; reflexivity.
Qed.

Lemma errors_app (a b : list Output) : errors (a ++ b) = errors a + errors b.
Proof.
  induction a as [|o a IH]; [reflexivity|].
  destruct o; simpl; rewrite IH; reflexivity.
Qed.

Lemma recordEvaluation_length (ev : option Evaluation) (l : list QAExchange) :
  length (recordEvaluation ev l) = length l.
Proof.
  unfold recordEvaluation.
  destruct l as [|x l] using rev_ind; [reflexivity|].
  rewrite reverse_snoc. rewrite reverse_involutive.
  rewrite !length_app. reflexivity.
Qed.

Lemma run_snoc (s : Session) (events : list Event) (e : Event) :
  run s (events ++ [e])
  = (fst (step (fst (run s events)) e),
     snd (run s events) ++ snd (step (fst (run s events)) e)).
Proof.
  revert s. induction events as [|e' events IH]; intros s; simpl.
  - destruct (step s e) as [s1 o1]. simpl. now rewrite app_nil_r.
  - destruct (step s e') as [s1 o1]. rewrite IH.
    destruct (run s1 events) as [s2 o2]. simpl. now rewrite app_assoc.
Qed.

Lemma run_app (s : Session) (events later : list Event) :
  run s (events ++ later)
  = (fst (run (fst (run s events)) later),
     snd (run s events) ++ snd (run (fst (run s events)) later)).
Proof.
  revert s. induction events as [|e events IH]; intros s; simpl.
  - destruct (run s later); reflexivity.
  - destruct (step s e) as [s1 o1]. rewrite IH.
    destruct (run s1 events) as [s2 o2]. simpl.
    destruct (run s2 later) as [s3 o3]. simpl. now rewrite app_assoc.
Qed.

(** Unfolds one transition of a session whose state and event are known and
    splits on the tests it makes. *)
Ltac step_cases :=
  unfold step, afterEvaluation, enter, finalizeAnswer; simpl in *;
  repeat match goal with
  | |- context [if ?a <? ?b then _ else _] =>
      let E := fresh "E" in destruct (a <? b) eqn:E;
      [apply Nat.ltb_lt in E | apply Nat.ltb_ge in E]; simpl
  | |- context [match ?n with Some _ => _ | None => _ end] => destruct n; simpl
  end.

Lemma invariant_create (cfg : Config) : invariant cfg (create cfg) [].
Proof. unfold invariant; simpl. repeat split; lia. Qed.

Lemma seq_snoc_length (l : list nat) (i : nat) :
  l = seq 0 (length l) -> i = length l -> l ++ [i] = seq 0 (length l + 1).
Proof.
  intros Hl ->. rewrite Nat.add_1_r, List.seq_S. simpl. now rewrite <- Hl.
Qed.

Lemma invariant_step (cfg : Config) (s : Session) (outs : list Output) (e : Event) :
  invariant cfg s outs ->
  invariant cfg (fst (step s e)) (outs ++ snd (step s e)).
Proof.
  unfold invariant.
  intros (Hc & Hq & Hm & Hl & Ha & He & Hp).
  rewrite questionIndices_app, assessments_app, errors_app, length_app.
  destruct s as [st qi c pq l pp]. simpl in *. subst c.
  destruct st, e; step_cases;
    rewrite ?app_nil_r, ?Nat.add_0_r, ?length_app, ?recordEvaluation_length in *;
    simpl in *;
    repeat split; try lia; try tauto;
    try (apply seq_snoc_length; [assumption | lia]).
Qed.

Lemma run_invariant (cfg : Config) (events : list Event) :
  invariant cfg (fst (run (create cfg) events)) (snd (run (create cfg) events)).
Proof.
  induction events as [|e events IH] using rev_ind.
  - apply invariant_create.
  - rewrite run_snoc. simpl. now apply invariant_step.
Qed.

(** A session in a terminal state discards every event. *)
Lemma terminal_step (s : Session) (e : Event) :
  terminal (state s) = true -> step s e = (s, []).
Proof.
  destruct s as [st qi c pq l pp]. simpl.
  destruct st; try discriminate; destruct e; reflexivity.
Qed.

Lemma terminal_run (s : Session) (events : list Event) :
  terminal (state s) = true -> run s events = (s, []).
Proof.
  intros Ht. induction events as [|e events IH]; [reflexivity|].
  simpl. rewrite (terminal_step s e Ht), IH. reflexivity.
Qed.

(** A question is emitted only with the index that comes next, which is the
    number of exchanges completed by then. *)
Lemma step_question (cfg : Config) (s : Session) (outs : list Output) (e : Event)
    (i : nat) (q : string) :
  invariant cfg s outs ->
  In (QuestionEvent i q) (snd (step s e)) ->
  i = length (questionIndices outs)
  /\ i = length (log (fst (step s e)))
  /\ i = questionIndex (fst (step s e)).
Proof.
  unfold invariant.
  intros (Hc & Hq & Hm & Hl & Ha & He & Hp).
  destruct s as [st qi c pq l pp]. simpl in *. subst c.
  destruct st, e; step_cases;
    rewrite ?recordEvaluation_length;
    intros Hin; repeat (destruct Hin as [Hin | Hin]; try discriminate Hin); try contradiction;
    injection Hin as <- <-; lia.
Qed.


End TurnTaking.

(** C2. Over every sequence of events a session consumes, the indices of the
    [question] events it has emitted are 0, 1, 2, ... without a gap or a
    repeat; the questions are never more than one ahead of the completed
    exchanges of the log; and any question the next event makes it emit
    carries the index that comes next, which is the number of exchanges
    completed by then.  On its side the interview page numbers the first
    question 1 and from then on adopts the number each response gives its
    next question, keeping the old number when no question comes back. *)
Theorem question_indices_consecutive (cfg : Orchestrator.Config)
    (events : list Orchestrator.Event) :
  let s := fst (Orchestrator.run (Orchestrator.create cfg) events) in
  let outs := snd (Orchestrator.run (Orchestrator.create cfg) events) in
  let asked := length (Orchestrator.questionIndices outs) in
  Orchestrator.questionIndices outs = seq 0 asked
  /\ length (Orchestrator.log s) <= asked <= S (length (Orchestrator.log s))
  /\ (forall (e : Orchestrator.Event) (i : nat) (q : string),
        In (Orchestrator.QuestionEvent i q) (snd (Orchestrator.step s e)) ->
        i = asked
        /\ i = length (Orchestrator.log (fst (Orchestrator.step s e)))
        /\ i = Orchestrator.questionIndex (fst (Orchestrator.step s e)))
  /\ (forall (page : InterviewPage.State) (sessionId firstQuestion : string),
        InterviewPage.currentQuestionNumber
          (fst (InterviewPage.initialized sessionId firstQuestion page)) = 1)
  /\ (forall (page : InterviewPage.State) (o : InterviewPage.Outcome),
        InterviewPage.currentQuestionNumber (fst (InterviewPage.handleSend page o))
        = match o with
          | InterviewPage.Resolved r =>
              if InterviewPage.accepts page
                 && JS.truthyProp (InterviewPage.nextQuestion r)
              then InterviewPage.nextQuestionNumber r
              else InterviewPage.currentQuestionNumber page
          | InterviewPage.Rejected => InterviewPage.currentQuestionNumber page
          end).
Proof.
  intros s outs asked.
  pose proof (run_invariant cfg events) as Hinv.
  split; [|split; [|split; [|split]]].
  - apply Hinv.
  - apply Hinv.
  - intros e i q. apply (step_question cfg). exact Hinv.
  - reflexivity.
  - apply handleSend_question_number.
Qed.



(** C5. Over every sequence of events a session consumes, it has emitted at
    most one terminal event, an [assessment] or an [error] and never both;
    it has emitted the [assessment] exactly when it is [Completed] and the
    [error] exactly when it is [Failed], so exactly one of the two once it is
    terminal and none before; and a terminal session discards whatever
    arrives later and emits nothing more. *)
Theorem one_terminal_event (cfg : Orchestrator.Config) (events : list Orchestrator.Event) :
  let s := fst (Orchestrator.run (Orchestrator.create cfg) events) in
  let outs := snd (Orchestrator.run (Orchestrator.create cfg) events) in
  Orchestrator.assessments outs + Orchestrator.errors outs <= 1
  /\ (Orchestrator.state s = Orchestrator.Completed <-> Orchestrator.assessments outs = 1)
  /\ (Orchestrator.state s = Orchestrator.Failed <-> Orchestrator.errors outs = 1)
  /\ (Orchestrator.terminal (Orchestrator.state s) = true
      <-> Orchestrator.assessments outs + Orchestrator.errors outs = 1)
  /\ (Orchestrator.terminal (Orchestrator.state s) = true ->
      forall later : list Orchestrator.Event,
        Orchestrator.run (Orchestrator.create cfg) (events ++ later) = (s, outs)).
Proof.
  intros s outs.
  pose proof (run_invariant cfg events) as Hinv.
  destruct Hinv as (_ & _ & _ & _ & Ha & He & _).
  fold s in Ha, He. fold outs in Ha, He.
  rewrite Ha, He.
  repeat split;
    try (destruct (Orchestrator.state s); simpl; repeat case_decide;
         intros; try discriminate; try congruence; try lia; fail).
  intros Ht later. subst s outs. rewrite run_app, (terminal_run _ later Ht). simpl.
  now rewrite app_nil_r.
Qed.

(** ** Reading an integer back with [parseInt] *)

Section ParseInt.

Local Open Scope nat_scope.

Lemma digit_not_space (c : ascii) : JS.isDigit c = true -> JS.isWhiteSpace c = false.
Proof.
  destruct c as [[] [] [] [] [] [] [] []]; intros H; try discriminate H; reflexivity.
Qed.

Lemma digit_not_sign (c : ascii) (s : string) :
  JS.isDigit c = true -> JS.readSign (String c s) = (false, String c s).
Proof.
  destruct c as [[] [] [] [] [] [] [] []]; intros H; try discriminate H; reflexivity.
Qed.

Lemma digits_radix_ten (s : string) :
  JS.allDigits s = true -> JS.readRadix s = (10, s).
Proof.
  destruct s as [|c s]; [reflexivity|].
  destruct s as [|c' s]; simpl.
  - destruct c as [[] [] [] [] [] [] [] []]; reflexivity.
  - intros H. apply andb_prop in H as [_ H]. apply andb_prop in H as [H _].
    assert (Hx : c' <> "x"%char /\ c' <> "X"%char)
      by (split; intros ->; discriminate H).
    destruct Hx as [Hx HX].
    destruct c as [[] [] [] [] [] [] [] []]; try reflexivity.
    destruct c' as [[] [] [] [] [] [] [] []]; try reflexivity; congruence.
Qed.

Lemma toString_first_digit (n : nat) :
  exists c s, JS.toString n = String c s /\ JS.isDigit c = true.
Proof.
  pose proof (toString_nonempty n) as Hl.
  pose proof (allDigits_toString n) as Hd.
  destruct (JS.toString n) as [|c s]; simpl in Hl; [lia|].
  exists c, s. simpl in Hd. apply andb_prop in Hd as [Hc _]. auto.
Qed.

Lemma parseIntString_toString (n : nat) :
  JS.parseIntString (JS.toString n) = Some (Z.of_nat n).
Proof.
  unfold JS.parseIntString.
  destruct (toString_first_digit n) as (c & s & Hs & Hc).
  pose proof (allDigits_toString n) as Hd.
  pose proof (readDigits_toString n) as Hr.
  rewrite Hs in *.
  cbn [JS.trimStart]. rewrite (digit_not_space c Hc).
  rewrite (digit_not_sign c s Hc).
  rewrite (digits_radix_ten _ Hd). rewrite Hr. reflexivity.
Qed.

Lemma parseIntString_minus_toString (n : nat) :
  JS.parseIntString (String "-" (JS.toString n)) = Some (- Z.of_nat n)%Z.
Proof.
  unfold JS.parseIntString.
  pose proof (allDigits_toString n) as Hd.
  pose proof (readDigits_toString n) as Hr.
  cbn [JS.trimStart]. change (JS.isWhiteSpace "-") with false. cbv iota.
  change (JS.readSign (String "-" (JS.toString n))) with (true, JS.toString n).
  cbv beta iota zeta.
  rewrite (digits_radix_ten _ Hd). rewrite Hr. reflexivity.
Qed.

(** [parseInt] gives an integer back as it is. *)
Lemma parseInt_integer (z : Z) : JS.parseInt z = JS.Fin z.
Proof.
  unfold JS.parseInt, JS.toStringZ.
  destruct (z <? 0)%Z eqn:E.
  - apply Z.ltb_lt in E. rewrite parseIntString_minus_toString.
    f_equal. rewrite Zabs2Nat.id_abs. lia.
  - apply Z.ltb_ge in E. rewrite parseIntString_toString.
    f_equal. now rewrite Z2Nat.id.
Qed.

End ParseInt.

(** ** The analytics page *)

Section Statistics.

Import Api Analytics.

Local Open Scope Z_scope.

Lemma fold_add_Fin (zs : list Z) (a : Z) :
  fold_left JS.add (JS.Fin <$> zs) (JS.Fin a) = JS.Fin (fold_left Z.add zs a).
Proof. revert a. induction zs as [|z zs IH]; intros a; simpl; [reflexivity | apply IH]. Qed.

Lemma fold_max_Fin (zs : list Z) (a : Z) :
  fold_left JS.max2 (JS.Fin <$> zs) (JS.Fin a) = JS.Fin (fold_left Z.max zs a).
Proof. revert a. induction zs as [|z zs IH]; intros a; simpl; [reflexivity | apply IH]. Qed.

Lemma fold_min_Fin (zs : list Z) (a : Z) :
  fold_left JS.min2 (JS.Fin <$> zs) (JS.Fin a) = JS.Fin (fold_left Z.min zs a).
Proof. revert a. induction zs as [|z zs IH]; intros a; simpl; [reflexivity | apply IH]. Qed.

(** The sum of a list lies between its length times a lower bound and its
    length times an upper bound of its elements. *)
Lemma fold_add_bounds (zs : list Z) (a lo hi : Z) :
  Forall (fun z => lo <= z <= hi) zs ->
  a + Z.of_nat (length zs) * lo <= fold_left Z.add zs a <= a + Z.of_nat (length zs) * hi.
Proof.
  revert a. induction zs as [|z zs IH]; intros a Hall; simpl fold_left.
  - simpl. lia.
  - inversion Hall as [|? ? Hz Hzs]; subst.
    specialize (IH (a + z) Hzs). rewrite length_cons. nia.
Qed.

Lemma fold_max_bounds (zs : list Z) (a : Z) :
  a <= fold_left Z.max zs a /\ Forall (fun z => z <= fold_left Z.max zs a) zs.
Proof.
  revert a. induction zs as [|z zs IH]; intros a; simpl.
  - split; [lia | constructor].
  - destruct (IH (Z.max a z)) as [Ha Hall]. split; [lia|].
    constructor; [lia | exact Hall].
Qed.

Lemma fold_min_bounds (zs : list Z) (a : Z) :
  fold_left Z.min zs a <= a /\ Forall (fun z => fold_left Z.min zs a <= z) zs.
Proof.
  revert a. induction zs as [|z zs IH]; intros a; simpl.
  - split; [lia | constructor].
  - destruct (IH (Z.min a z)) as [Ha Hall]. split; [lia|].
    constructor; [lia | exact Hall].
Qed.

(** [Math.round] of a quotient of integers, in integer arithmetic. *)
Lemma Math_round_quotient (t : Z) (p : positive) :
  JS.Math_round (inject_Z t / inject_Z (Z.pos p)) = (2 * t + Z.pos p) / (2 * Z.pos p).
Proof.
  unfold JS.Math_round, Qfloor, Qdiv, Qinv, Qmult, Qplus, inject_Z. simpl.
  f_equal; lia.
Qed.

Lemma Math_round_bounds (t lo hi : Z) (p : positive) :
  Z.pos p * lo <= t <= Z.pos p * hi ->
  lo <= JS.Math_round (inject_Z t / inject_Z (Z.pos p)) <= hi.
Proof.
  intros [Hlo Hhi]. rewrite Math_round_quotient. split.
  - apply Z.div_le_lower_bound; lia.
  - apply Z.lt_succ_r. apply Z.div_lt_upper_bound; lia.
Qed.

(** A score that was parsed is an integer or [NaN]. *)
Lemma scoreOf_cases (r : Reply) : scoreOf r = JS.NaN \/ exists z, scoreOf r = JS.Fin z.
Proof.
  unfold scoreOf.
  destruct (orZeroValue _) as [z | s]; simpl.
  - right. exists z. apply parseInt_integer.
  - destruct (JS.parseIntString s); eauto.
Qed.

Lemma scores_cases (data : list Reply) :
  (exists scores, scoreOf <$> data = JS.Fin <$> scores) \/ In JS.NaN (scoreOf <$> data).
Proof.
  induction data as [|r data IH]; [left; now exists []|].
  cbn [fmap list_fmap]. destruct (scoreOf_cases r) as [-> | [z ->]]; [right; now left|].
  destruct IH as [[zs Hzs] | Hnan]; [left | right; now right].
  exists (z :: zs). cbn [fmap list_fmap]. now f_equal.
Qed.

(** A [NaN] among the numbers makes their sum, their maximum and their
    minimum [NaN]. *)
Lemma fold_NaN (f : JS.Num -> JS.Num -> JS.Num) (xs : list JS.Num) (a : JS.Num) :
  (forall x, f JS.NaN x = JS.NaN) -> (forall x, f x JS.NaN = JS.NaN) ->
  a = JS.NaN \/ In JS.NaN xs -> fold_left f xs a = JS.NaN.
Proof.
  intros Hl Hr. revert a. induction xs as [|x xs IH]; intros a H; simpl.
  - destruct H as [H | []]. exact H.
  - apply IH. destruct H as [-> | [-> | H]]; [left; apply Hl | left; apply Hr | now right].
Qed.

Lemma add_NaN : (forall x, JS.add JS.NaN x = JS.NaN) /\ (forall x, JS.add x JS.NaN = JS.NaN).
Proof. split; intros []; reflexivity. Qed.

Lemma max2_NaN : (forall x, JS.max2 JS.NaN x = JS.NaN) /\ (forall x, JS.max2 x JS.NaN = JS.NaN).
Proof. split; intros []; reflexivity. Qed.

Lemma min2_NaN : (forall x, JS.min2 JS.NaN x = JS.NaN) /\ (forall x, JS.min2 x JS.NaN = JS.NaN).
Proof. split; intros []; reflexivity. Qed.

Lemma fold_max_attained (zs : list Z) (a : Z) : In (fold_left Z.max zs a) (a :: zs).
Proof.
  revert a. induction zs as [|z zs IH]; intros a; simpl; [now left|].
  destruct (IH (Z.max a z)) as [H | H]; [|right; now right].
  rewrite <- H. destruct (Z.max_spec a z) as [[_ ->] | [_ ->]]; [right; now left | now left].
Qed.

Lemma fold_min_attained (zs : list Z) (a : Z) : In (fold_left Z.min zs a) (a :: zs).
Proof.
  revert a. induction zs as [|z zs IH]; intros a; simpl; [now left|].
  destruct (IH (Z.min a z)) as [H | H]; [|right; now right].
  rewrite <- H. destruct (Z.min_spec a z) as [[_ ->] | [_ ->]]; [now left | right; now left].
Qed.

(** The statistics of results whose scores were all parsed. *)
Lemma calculateStats_parsed (r : Reply) (rs : list Reply) (z : Z) (zs : list Z)
    (stats : Stats) :
  scoreOf <$> (r :: rs) = JS.Fin <$> (z :: zs) ->
  let st := calculateStats (Some (r :: rs)) stats in
  highestScore st = JS.Fin (fold_left Z.max zs z)
  /\ lowestScore st = JS.Fin (fold_left Z.min zs z)
  /\ averageScore st
     = JS.Fin (JS.Math_round (inject_Z (fold_left Z.add (z :: zs) 0)
                              / inject_Z (Z.pos (Pos.of_succ_nat (length rs))))).
Proof.
  intros H st. subst st. unfold calculateStats. cbv zeta.
  cbn [lowestScore averageScore highestScore].
  rewrite H. unfold JS.Math_max, JS.Math_min.
  rewrite fold_add_Fin. cbn [fmap list_fmap fold_left JS.max2 JS.min2].
  rewrite fold_max_Fin, fold_min_Fin.
  repeat split; reflexivity.
Qed.

(** The statistics of results one of whose scores could not be parsed. *)
Lemma calculateStats_NaN (r : Reply) (rs : list Reply) (stats : Stats) :
  In JS.NaN (scoreOf <$> (r :: rs)) ->
  let st := calculateStats (Some (r :: rs)) stats in
  averageScore st = JS.NaN /\ highestScore st = JS.NaN /\ lowestScore st = JS.NaN.
Proof.
  intros H st. subst st. unfold calculateStats. cbv zeta.
  cbn [lowestScore averageScore highestScore].
  unfold JS.Math_max, JS.Math_min.
  rewrite !fold_NaN; try apply add_NaN; try apply max2_NaN; try apply min2_NaN; auto.
Qed.

(** The mean of integers, rounded, is within half a point of the mean. *)
Lemma Math_round_nearest (t : Z) (p : positive) :
  let a := JS.Math_round (inject_Z t / inject_Z (Z.pos p)) in
  2 * t - Z.pos p < 2 * Z.pos p * a <= 2 * t + Z.pos p.
Proof.
  intros a. subst a. rewrite Math_round_quotient.
  pose proof (Z.div_mod (2 * t + Z.pos p) (2 * Z.pos p) ltac:(lia)) as Hdiv.
  pose proof (Z.mod_pos_bound (2 * t + Z.pos p) (2 * Z.pos p) ltac:(lia)) as Hmod.
  nia.
Qed.

End Statistics.

(** C9. For a list of interview results that is not empty, [calculateStats]
    sets [totalInterviews] to the length of the list.  Every score is parsed
    to an integer or to [NaN].  When all are integers, small enough for the
    arithmetic of the page to be exact, the lowest and the highest score of
    the statistics are the least and the greatest of them, the average is
    [Math.round] of their mean, the integer nearest to it, and
    [lowestScore <= averageScore <= highestScore].  When a score cannot be
    parsed, the average, the highest and the lowest score are all [NaN].
    For an empty list, and for no list at all, the statistics are left as
    they are, so the initial ones keep their zeros. *)
Theorem calculateStats_ordered (data : list Api.Reply) (stats : Analytics.Stats) :
  let st := Analytics.calculateStats (Some data) stats in
  let n := Z.of_nat (length data) in
  (data <> [] ->
   Analytics.totalInterviews st = length data
   /\ ((exists scores, Analytics.scoreOf <$> data = JS.Fin <$> scores)
       \/ In JS.NaN (Analytics.scoreOf <$> data))
   /\ (forall scores : list Z,
         Analytics.scoreOf <$> data = JS.Fin <$> scores ->
         Forall (fun z => (Z.abs z * n * n <= 2 ^ 50)%Z) scores ->
         let total := fold_left Z.add scores 0%Z in
         exists lowest average highest : Z,
           Analytics.lowestScore st = JS.Fin lowest
           /\ Analytics.averageScore st = JS.Fin average
           /\ Analytics.highestScore st = JS.Fin highest
           /\ In lowest scores /\ In highest scores
           /\ Forall (fun z => (lowest <= z <= highest)%Z) scores
           /\ average = JS.Math_round (inject_Z total / inject_Z n)
           /\ (2 * total - n < 2 * n * average <= 2 * total + n)%Z
           /\ (lowest <= average <= highest)%Z
           /\ JS.le (Analytics.lowestScore st) (Analytics.averageScore st) = true
           /\ JS.le (Analytics.averageScore st) (Analytics.highestScore st) = true)
   /\ (In JS.NaN (Analytics.scoreOf <$> data) ->
       Analytics.averageScore st = JS.NaN
       /\ Analytics.highestScore st = JS.NaN
       /\ Analytics.lowestScore st = JS.NaN))
  /\ (data = [] -> st = stats)
  /\ Analytics.calculateStats None stats = stats
  /\ Analytics.calculateStats (Some []) Analytics.initialStats
     = {| Analytics.totalInterviews := 0;
          Analytics.averageScore := JS.Fin 0;
          Analytics.highestScore := JS.Fin 0;
          Analytics.lowestScore := JS.Fin 0;
          Analytics.topStrengths := [];
          Analytics.commonWeaknesses := [] |}.
Proof.
  intros st n. split; [|split; [|split]]; try reflexivity.
  2: { intros ->. reflexivity. }
  intros Hne. subst st n.
  destruct data as [|r rs]; [congruence|]. clear Hne.
  split; [reflexivity|]. split; [apply scores_cases|]. split.
  2: { apply calculateStats_NaN. }
  intros scores Hscores _ total. subst total.
  destruct scores as [|z zs]; [discriminate|].
  destruct (calculateStats_parsed r rs z zs stats Hscores) as (Hhi & Hlo & Havg).
  rewrite Hhi, Hlo, Havg.
  destruct (fold_max_bounds zs z) as [Hzhi Hbhi].
  destruct (fold_min_bounds zs z) as [Hzlo Hblo].
  pose proof (fold_max_attained zs z) as Hahi.
  pose proof (fold_min_attained zs z) as Halo.
  set (hi := fold_left Z.max zs z) in *.
  set (lo := fold_left Z.min zs z) in *.
  assert (Hall : Forall (fun x => (lo <= x <= hi)%Z) (z :: zs)).
  { constructor; [lia|]. rewrite Forall_forall in *. intros x Hx.
    specialize (Hbhi x Hx). specialize (Hblo x Hx). lia. }
  pose proof (fold_add_bounds (z :: zs) 0%Z lo hi Hall) as Hsum.
  assert (Hlen : length (z :: zs) = S (length rs)).
  { apply (f_equal length) in Hscores. rewrite !length_fmap in Hscores. now symmetry. }
  rewrite Hlen in Hsum. cbn [length].
  change (Z.of_nat (S (length rs))) with (Z.pos (Pos.of_succ_nat (length rs))) in *.
  set (total := fold_left Z.add (z :: zs) 0%Z) in *.
  pose proof (Math_round_bounds total lo hi (Pos.of_succ_nat (length rs))) as Hround.
  pose proof (Math_round_nearest total (Pos.of_succ_nat (length rs))) as Hnear.
  cbv zeta in Hnear.
  set (average := JS.Math_round
                    (inject_Z total / inject_Z (Z.pos (Pos.of_succ_nat (length rs))))) in *.
  assert (Hb : (lo <= average <= hi)%Z) by (apply Hround; lia).
  exists lo, average, hi.
  repeat split; auto; try lia; simpl; apply Z.leb_le; lia.
Qed.

(** Three interviews, scored 80, "65%" and not at all. *)
Lemma calculateStats_ordered_witness :
  let scored := fun p : option JS.Value =>
    {| Api.assessment := Some {| Api.candidate_score_percent := p;
                                 Api.hiring_recommendation := None;
                                 Api.summary := None;
                                 Api.strengths := Some ["Clear answers"];
                                 Api.weaknesses := None;
                                 Api.improvement_areas := None;
                                 Api.recommendations := None |} |} in
  let data := [scored (Some (JS.Number 80)); scored (Some (JS.Text "65%")); scored None] in
  Analytics.totalInterviews (Analytics.calculateStats (Some data) Analytics.initialStats) = 3
  /\ Analytics.averageScore (Analytics.calculateStats (Some data) Analytics.initialStats)
     = JS.Fin 48.
Proof.
  intros scored data.
  destruct (calculateStats_ordered data Analytics.initialStats) as [H _].
  destruct H as [Hn _]; [discriminate|].
  split; [exact Hn | reflexivity].
Defined.

(** C9, as the specification words it, fails for a score that [parseInt]
    cannot read: of two interviews scored 80 and "N/A" the average, the
    highest and the lowest score are [NaN], no integers, and
    [lowestScore <= averageScore] is false. *)
Lemma unparsable_score_gives_NaN :
  let scored := fun p : JS.Value =>
    {| Api.assessment := Some {| Api.candidate_score_percent := Some p;
                                 Api.hiring_recommendation := None;
                                 Api.summary := None;
                                 Api.strengths := None;
                                 Api.weaknesses := None;
                                 Api.improvement_areas := None;
                                 Api.recommendations := None |} |} in
  let st := Analytics.calculateStats (Some [scored (JS.Number 80); scored (JS.Text "N/A")])
              Analytics.initialStats in
  Analytics.totalInterviews st = 2
  /\ Analytics.averageScore st = JS.NaN
  /\ Analytics.highestScore st = JS.NaN
  /\ Analytics.lowestScore st = JS.NaN
  /\ JS.le (Analytics.lowestScore st) (Analytics.averageScore st) = false
  /\ JS.le (Analytics.averageScore st) (Analytics.highestScore st) = false.
Proof.
  vm_compute. repeat split.
Qed.

(** ** The audio ingestion buffer *)

(** C6. A call [submit sessionId seq bytes] fails with [OutOfOrder] if and
    only if [seq] is not the value the buffer expects next for that session;
    a submission that is rejected leaves the buffer as it was, the expected
    values and what has been forwarded alike; and one that is accepted
    forwards the bytes and moves the expected value of that session, and of
    no other, one up. *)
Theorem out_of_order_rejected (b : AudioIngestion.Buffer) (sessionId : string)
    (seq : nat) (bytes : list Byte.byte) :
  let reply := fst (AudioIngestion.submit sessionId seq bytes b) in
  let b' := snd (AudioIngestion.submit sessionId seq bytes b) in
  (reply = AudioIngestion.Failed AudioIngestion.OutOfOrder
   <-> seq <> AudioIngestion.expectedSeq b sessionId)
  /\ (reply = AudioIngestion.Failed AudioIngestion.OutOfOrder -> b' = b)
  /\ (reply <> AudioIngestion.Failed AudioIngestion.OutOfOrder ->
      reply = AudioIngestion.Accepted
      /\ AudioIngestion.expectedSeq b' sessionId = S seq
      /\ AudioIngestion.forwarded b' = AudioIngestion.forwarded b ++ [(sessionId, bytes)]
      /\ forall other : string,
           other <> sessionId ->
           AudioIngestion.expectedSeq b' other = AudioIngestion.expectedSeq b other).
Proof.
  intros reply b'. subst reply b'. unfold AudioIngestion.submit.
  destruct (decide (seq = AudioIngestion.expectedSeq b sessionId)) as [Heq | Hne]; simpl.
  - split; [split; [discriminate | congruence]|].
    split; [discriminate|]. intros _.
    unfold AudioIngestion.expectedSeq. simpl.
    rewrite lookup_insert_eq. repeat split.
    intros other Hother. now rewrite lookup_insert_ne.
  - split; [split; auto|]. split; [reflexivity | congruence].
Qed.

(** ** The results page *)

(** C10. A result whose record has no assessment, or an assessment without
    [candidate_score_percent], is rendered with the score 0, shown as [0%],
    and the label [Needs Improvement]; and [getScoreLabel] gives every score
    exactly one of its four labels: [Excellent] from 80 up, [Good] from 60 to
    below 80, [Fair] from 40 to below 60 and [Needs Improvement] below 40. *)
Theorem missing_score_needs_improvement (r : Api.Result) (score : Z) :
  (Api.assessment r = None
   \/ exists a, Api.assessment r = Some a /\ Api.candidate_score_percent a = None) ->
  InterviewResults.scoreOf r = 0%Z
  /\ InterviewResults.render
       {| InterviewResults.result := Some r;
          InterviewResults.loading := false;
          InterviewResults.error := "" |}
     = InterviewResults.Results 0
         {| InterviewResults.gradient := "from-red-500 to-pink-500";
            InterviewResults.percent := "0%";
            InterviewResults.label := "Needs Improvement" |}
         (InterviewResults.assessmentOf r)
  /\ (InterviewResults.getScoreLabel score = "Excellent" <-> (80 <= score)%Z)
  /\ (InterviewResults.getScoreLabel score = "Good" <-> (60 <= score < 80)%Z)
  /\ (InterviewResults.getScoreLabel score = "Fair" <-> (40 <= score < 60)%Z)
  /\ (InterviewResults.getScoreLabel score = "Needs Improvement" <-> (score < 40)%Z).
Proof.
  intros Hmissing.
  assert (Hscore : InterviewResults.scoreOf r = 0%Z).
  { unfold InterviewResults.scoreOf, InterviewResults.assessmentOf.
    destruct Hmissing as [-> | (a & -> & Ha)]; simpl; [reflexivity|].
    now rewrite Ha. }
  split; [exact Hscore|]. split.
  { unfold InterviewResults.render. simpl. rewrite Hscore. reflexivity. }
  unfold InterviewResults.getScoreLabel.
  destruct (80 <=? score)%Z eqn:E80; [apply Z.leb_le in E80 | apply Z.leb_gt in E80];
    [| destruct (60 <=? score)%Z eqn:E60; [apply Z.leb_le in E60 | apply Z.leb_gt in E60];
       [| destruct (40 <=? score)%Z eqn:E40;
          [apply Z.leb_le in E40 | apply Z.leb_gt in E40]]];
    repeat split; intros; try discriminate; try lia; reflexivity.
Qed.

(** A result that came without an assessment, and the score 59. *)
Lemma missing_score_needs_improvement_witness :
  InterviewResults.scoreOf {| Api.assessment := None |} = 0%Z
  /\ InterviewResults.getScoreLabel
       (InterviewResults.scoreOf {| Api.assessment := None |}) = "Needs Improvement"
  /\ InterviewResults.getScoreLabel 59 = "Fair".
Proof.
  destruct (missing_score_needs_improvement {| Api.assessment := None |} 59%Z)
    as (H0 & _ & _ & _ & Hfair & _); [left; reflexivity|].
  split; [exact H0|]. split; [rewrite H0; reflexivity|].
  apply Hfair. lia.
Defined.

Example formatTime_65 : InterviewPage.formatTime 65 = "01:05".
Proof. reflexivity. Qed.

Example formatTime_4500 : InterviewPage.formatTime 4500 = "75:00".
Proof. reflexivity. Qed.

Example trim_example : JS.trim "  a b  " = "a b".
Proof. reflexivity. Qed.

Example parseInt_examples :
  JS.parseInt 85 = JS.Fin 85 /\ JS.parseInt (-7) = JS.Fin (-7) /\ JS.parseInt 0 = JS.Fin 0
  /\ JS.parseIntString "0x1f" = Some 31%Z /\ JS.parseIntString "12px" = Some 12%Z
  /\ JS.parseIntString "N/A" = None.
Proof. repeat split; reflexivity. Qed.

Example Math_round_examples :
  JS.Math_round (5 # 2) = 3%Z /\ JS.Math_round (-5 # 2) = (-2)%Z /\ JS.Math_round (7 # 3) = 2%Z.
Proof. repeat split; reflexivity. Qed.

(** ** The scenarios of the specification, run on the state machine *)

Example scenario_three_answers :
  let events :=
    Orchestrator.firstTurn
    ++ Orchestrator.furtherTurn "Why a compiler?" "To learn how they work."
    ++ Orchestrator.furtherTurn "What was hard?" "Register allocation."
    ++ [Orchestrator.PolicyResult None (Some "Anything else?");
        Orchestrator.FinalizerDone Orchestrator.scenarioAssessment true] in
  let s := fst (Orchestrator.run (Orchestrator.create Orchestrator.scenarioConfig) events) in
  let outs := snd (Orchestrator.run (Orchestrator.create Orchestrator.scenarioConfig) events) in
  length (Orchestrator.log s) = 3
  /\ Orchestrator.state s = Orchestrator.Completed
  /\ Orchestrator.questionIndices outs = [0; 1; 2]
  /\ Orchestrator.assessments outs = 1
  /\ Orchestrator.errors outs = 0.
Proof. repeat split. Qed.

Example scenario_stop_after_two_seconds :
  let listening :=
    fst (Orchestrator.run (Orchestrator.create Orchestrator.scenarioConfig)
           [Orchestrator.Start; Orchestrator.ContextLoaded "Tell me about your last project.";
            Orchestrator.QuestionPlayed]) in
  Orchestrator.step listening (Orchestrator.StopRecording 2 "Well")
  = (listening, [Orchestrator.AnswerTooShort]).
Proof. reflexivity. Qed.

Example scenario_idle_timeout :
  let events :=
    Orchestrator.firstTurn
    ++ [Orchestrator.PolicyResult None (Some "Why a compiler?"); Orchestrator.QuestionPlayed;
        Orchestrator.IdleTimeout;
        Orchestrator.FinalizerDone Orchestrator.scenarioAssessment true] in
  let s := fst (Orchestrator.run (Orchestrator.create Orchestrator.scenarioConfig) events) in
  Orchestrator.state s = Orchestrator.Completed /\ length (Orchestrator.log s) = 1.
Proof. repeat split. Qed.

Example submit_in_order :
  let b1 := snd (AudioIngestion.submit "s1" 0 [] AudioIngestion.empty) in
  fst (AudioIngestion.submit "s1" 0 [] AudioIngestion.empty) = AudioIngestion.Accepted
  /\ AudioIngestion.submit "s1" 2 [] b1 = (AudioIngestion.Failed AudioIngestion.OutOfOrder, b1)
  /\ fst (AudioIngestion.submit "s1" 1 [] b1) = AudioIngestion.Accepted
  /\ fst (AudioIngestion.submit "s2" 0 [] b1) = AudioIngestion.Accepted.
Proof. repeat split. Qed.

Example handleSend_first_answer :
  let response := {| InterviewPage.nextQuestion := Some "Why a compiler?";
                     InterviewPage.nextQuestionNumber := 2;
                     InterviewPage.closingMessage := None;
                     InterviewPage.message := None |} in
  snd (InterviewPage.handleSend InterviewPage.answering (InterviewPage.Resolved response))
  = [InterviewPage.SubmitAnswer (Some "session-1") 1 "I built a compiler.";
     InterviewPage.Speak "Why a compiler?"]
  /\ InterviewPage.currentQuestionNumber
       (fst (InterviewPage.handleSend InterviewPage.answering (InterviewPage.Resolved response)))
     = 2.
Proof. repeat split. Qed.

Example calculateStats_tallies :
  let scored := fun (p : Z) (good : list string) =>
    {| Api.assessment := Some {| Api.candidate_score_percent := Some (JS.Number p);
                                 Api.hiring_recommendation := None;
                                 Api.summary := None;
                                 Api.strengths := Some good;
                                 Api.weaknesses := None;
                                 Api.improvement_areas := Some ["Pace"];
                                 Api.recommendations := None |} |} in
  let st := Analytics.calculateStats
              (Some [scored 80%Z ["Clarity"; "Depth"]; scored 65%Z ["Depth"]])
              Analytics.initialStats in
  Analytics.topStrengths st
  = [ {| Analytics.name := "Depth"; Analytics.count := 2 |};
      {| Analytics.name := "Clarity"; Analytics.count := 1 |} ]
  /\ Analytics.commonWeaknesses st = [ {| Analytics.name := "Pace"; Analytics.count := 2 |} ]
  /\ Analytics.averageScore st = JS.Fin 73
  /\ Analytics.highestScore st = JS.Fin 80
  /\ Analytics.lowestScore st = JS.Fin 65.
Proof. repeat split. Qed.

(** * Further properties of the pages *)

(** ** Trimmed answers *)

Section Trimming.

Lemma trimEnd_cons (c : ascii) (s : string) :
  JS.trimEnd (String c s)
  = match JS.trimEnd s with
    | EmptyString => if JS.isWhiteSpace c then EmptyString else String c EmptyString
    | t => String c t
    end.
Proof. reflexivity. Qed.

Lemma trimEnd_fixed (s : string) : JS.trimEnd (JS.trimEnd s) = JS.trimEnd s.
Proof.
  induction s as [|c s IH]; [reflexivity|].
  rewrite trimEnd_cons. destruct (JS.trimEnd s) as [|d t] eqn:E.
  - destruct (JS.isWhiteSpace c) eqn:Ec; [reflexivity|].
    rewrite trimEnd_cons. simpl JS.trimEnd. now rewrite Ec.
  - rewrite trimEnd_cons, IH. reflexivity.
Qed.

Lemma trimEnd_keeps_head (c : ascii) (s : string) :
  JS.isWhiteSpace c = false -> exists t, JS.trimEnd (String c s) = String c t.
Proof.
  intros Hc. cbn [JS.trimEnd]. destruct (JS.trimEnd s) as [|d t].
  - rewrite Hc. eauto.
  - eauto.
Qed.

Lemma trimStart_head (s : string) :
  JS.trimStart s = "" \/ exists c t, JS.trimStart s = String c t /\ JS.isWhiteSpace c = false.
Proof.
  induction s as [|c s IH]; [left; reflexivity|].
  cbn [JS.trimStart]. destruct (JS.isWhiteSpace c) eqn:Ec; [exact IH|].
  right. eauto.
Qed.

(** What [trim] returns is empty or starts with a code unit that is not
    white space. *)
Lemma trim_head (s : string) :
  JS.trim s = "" \/ exists c t, JS.trim s = String c t /\ JS.isWhiteSpace c = false.
Proof.
  unfold JS.trim. destruct (trimStart_head s) as [-> | (c & t & -> & Hc)].
  - left. reflexivity.
  - right. destruct (trimEnd_keeps_head c t Hc) as [u Hu]. eauto.
Qed.

(** Trimming twice is trimming once. *)
Lemma trim_fixed (s : string) : JS.trim (JS.trim s) = JS.trim s.
Proof.
  destruct (trim_head s) as [E | (c & t & E & Hc)].
  - rewrite E. reflexivity.
  - unfold JS.trim at 1. rewrite E. cbn [JS.trimStart]. rewrite Hc.
    rewrite <- E. unfold JS.trim. apply trimEnd_fixed.
Qed.

(** A string that [trimEnd] leaves alone does not end in white space. *)
Lemma trimEnd_last (front : string) (c : ascii) :
  JS.trimEnd (front +:+ String c "") = front +:+ String c "" ->
  JS.isWhiteSpace c = false.
Proof.
  induction front as [|d front IH].
  - simpl. destruct (JS.isWhiteSpace c); [discriminate | reflexivity].
  - change (String d front +:+ String c "") with (String d (front +:+ String c "")).
    rewrite trimEnd_cons.
    destruct (JS.trimEnd (front +:+ String c "")) as [|e t] eqn:E.
    + destruct front; simpl; destruct (JS.isWhiteSpace d); discriminate.
    + intros H. injection H as H. apply IH. exact H.
Qed.

Lemma trim_trimEnd (s : string) : JS.trimEnd (JS.trim s) = JS.trim s.
Proof. unfold JS.trim. apply trimEnd_fixed. Qed.

End Trimming.

(** ** A visit of the text interview page *)

Section Visit.

Import InterviewPage.

Lemma requests_app (a b : list Command) : requests (a ++ b) = requests a ++ requests b.
Proof.
  induction a as [|c a IH]; [reflexivity|].
  destruct c; simpl; rewrite IH; reflexivity.
Qed.

(** What [handleSend] does, by whether its guard lets the answer through. *)
Lemma handleSend_cases (s : State) (o : Outcome) :
  (accepts s = false /\ handleSend s o = (s, []))
  \/ (accepts s = true
      /\ exists reply : string,
           messages (fst (handleSend s o))
           = messages s ++ [ {| sender := user; text := JS.trim (input s) |};
                             {| sender := ai; text := reply |} ]
           /\ requests (snd (handleSend s o))
              = [(currentQuestionNumber s, JS.trim (input s))]
           /\ isTimerRunning (fst (handleSend s o)) = isTimerRunning s
           /\ isComplete (fst (handleSend s o)) = isComplete s
           /\ elapsedTime (fst (handleSend s o)) = elapsedTime s).
Proof.
  unfold handleSend, accepts.
  destruct (negb (JS.truthy (JS.trim (input s))) || loading s || interviewEnded s);
    [left; split; reflexivity|].
  right. split; [reflexivity|].
  destruct o as [r|].
  - destruct (JS.truthyProp (nextQuestion r)); eexists; simpl;
      rewrite <- app_assoc; repeat split.
  - eexists; simpl; rewrite <- app_assoc; repeat split.
Qed.

Lemma accepts_answer (s : State) : accepts s = true -> JS.trim (input s) <> "".
Proof.
  unfold accepts. intros H E. rewrite E in H. discriminate H.
Qed.

Lemma run_cons (s : State) (e : Event) (events : list Event) :
  run s (e :: events)
  = (fst (run (fst (handle s e)) events),
     snd (handle s e) ++ snd (run (fst (handle s e)) events)).
Proof.
  simpl. destruct (handle s e) as [s1 c1]. simpl.
  destruct (run s1 events) as [s2 c2]. reflexivity.
Qed.

(** An event other than a sent answer issues no request and leaves the
    transcript, the question number and the end of the interview alone. *)
Lemma handle_other (s : State) (e : Event) :
  (forall o, e <> Sent o) ->
  messages (fst (handle s e)) = messages s
  /\ currentQuestionNumber (fst (handle s e)) = currentQuestionNumber s
  /\ interviewEnded (fst (handle s e)) = interviewEnded s
  /\ isTimerRunning (fst (handle s e)) = isTimerRunning s
  /\ isComplete (fst (handle s e)) = isComplete s
  /\ requests (snd (handle s e)) = []
  /\ Forall (fun c => match c with Speak _ => False | _ => True end) (snd (handle s e)).
Proof.
  intros Hne. destruct e as [v | o | | | |]; simpl.
  - repeat split; constructor.
  - now destruct (Hne o).
  - unfold handleStopRecording. destruct (_ <? _); simpl; repeat split; repeat constructor.
  - unfold timerTick. destruct (_ && _); simpl; repeat split; constructor.
  - repeat split; constructor.
  - unfold recordingTick. destruct (isRecording s); simpl; repeat split; constructor.
Qed.

Lemma sent_or_other (e : Event) : (exists o, e = Sent o) \/ (forall o, e <> Sent o).
Proof. destruct e; eauto; right; intros; discriminate. Qed.

End Visit.

(** X1. Every answer that the page submits, in any visit, is what the
    candidate had in the input with the white space at both ends removed: it
    is not empty, trimming it again changes nothing, and neither its first
    nor its last code unit is white space. *)
Theorem submitted_answers_trimmed (s : InterviewPage.State)
    (events : list InterviewPage.Event) (n : nat) (a : string) :
  In (n, a) (InterviewPage.requests (snd (InterviewPage.run s events))) ->
  a <> ""
  /\ JS.trim a = a
  /\ (forall c rest, a = String c rest -> JS.isWhiteSpace c = false)
  /\ (forall front c, a = front +:+ String c "" -> JS.isWhiteSpace c = false).
Proof.
  revert s. induction events as [|e events IH]; intros s; [intros []|].
  rewrite run_cons. cbn [snd]. rewrite requests_app.
  intros Hin. apply in_app_or in Hin as [Hin | Hin]; [|exact (IH _ Hin)].
  destruct (sent_or_other e) as [[o ->] | Hne].
  2: { destruct (handle_other s e Hne) as (_ & _ & _ & _ & _ & Hr & _).
       rewrite Hr in Hin. destruct Hin. }
  cbn [InterviewPage.handle] in Hin.
  destruct (handleSend_cases s o) as [[_ E] | (Ha & reply & _ & Hr & _)].
  - rewrite E in Hin. destruct Hin.
  - rewrite Hr in Hin. destruct Hin as [Hin | []]. injection Hin as <- <-.
    pose proof (accepts_answer s Ha) as Hne.
    split; [exact Hne|]. split; [apply trim_fixed|]. split.
    + intros c rest E. destruct (trim_head (InterviewPage.input s))
        as [E0 | (c' & t & E' & Hc)]; [congruence|].
      rewrite E in E'. injection E' as -> _. exact Hc.
    + intros front c E. apply (trimEnd_last front). rewrite <- E. apply trim_trimEnd.
Qed.

(** A visit in which two answers are sent. *)
Lemma submitted_answers_trimmed_witness :
  let events :=
    [InterviewPage.Typed "  I built a compiler.  ";
     InterviewPage.Sent (InterviewPage.Resolved
       {| InterviewPage.nextQuestion := Some "Why a compiler?";
          InterviewPage.nextQuestionNumber := 2;
          InterviewPage.closingMessage := None;
          InterviewPage.message := None |});
     InterviewPage.Typed "To learn."; InterviewPage.Sent InterviewPage.Rejected] in
  InterviewPage.requests (snd (InterviewPage.run InterviewPage.asked events))
  = [(1, "I built a compiler."); (2, "To learn.")]
  /\ JS.trim "I built a compiler." = "I built a compiler.".
Proof.
  intros events. split; [vm_compute; reflexivity|].
  destruct (submitted_answers_trimmed InterviewPage.asked events 1 "I built a compiler.")
    as (_ & Ht & _); [vm_compute; left; reflexivity | exact Ht].
Defined.

(** X3. Once the interview has ended, nothing that happens on the page
    afterwards changes the transcript or the question number, reopens the
    interview, submits an answer or speaks. *)
Theorem ended_interview_stays_ended (s : InterviewPage.State)
    (events : list InterviewPage.Event) :
  InterviewPage.interviewEnded s = true ->
  InterviewPage.messages (fst (InterviewPage.run s events)) = InterviewPage.messages s
  /\ InterviewPage.currentQuestionNumber (fst (InterviewPage.run s events))
     = InterviewPage.currentQuestionNumber s
  /\ InterviewPage.interviewEnded (fst (InterviewPage.run s events)) = true
  /\ InterviewPage.requests (snd (InterviewPage.run s events)) = []
  /\ Forall (fun c => match c with InterviewPage.Speak _ => False | _ => True end)
       (snd (InterviewPage.run s events)).
Proof.
  revert s. induction events as [|e events IH]; intros s Hend.
  - simpl. repeat split; auto.
  - rewrite run_cons. cbn [fst snd]. rewrite requests_app.
    assert (Hstep :
      InterviewPage.messages (fst (InterviewPage.handle s e)) = InterviewPage.messages s
      /\ InterviewPage.currentQuestionNumber (fst (InterviewPage.handle s e))
         = InterviewPage.currentQuestionNumber s
      /\ InterviewPage.interviewEnded (fst (InterviewPage.handle s e)) = true
      /\ InterviewPage.requests (snd (InterviewPage.handle s e)) = []
      /\ Forall (fun c => match c with InterviewPage.Speak _ => False | _ => True end)
           (snd (InterviewPage.handle s e))).
    { destruct (sent_or_other e) as [[o ->] | Hne].
      2: { destruct (handle_other s e Hne) as (H1 & H2 & H3 & _ & _ & H4 & H5).
           rewrite H3. repeat split; auto. }
      cbn [InterviewPage.handle].
      destruct (handleSend_cases s o) as [[_ E] | (Ha & _)].
      - rewrite E. simpl. repeat split; auto.
      - unfold InterviewPage.accepts in Ha. rewrite Hend in Ha.
        rewrite orb_true_r in Ha. discriminate Ha. }
    destruct Hstep as (H1 & H2 & H3 & H4 & H5).
    destruct (IH _ H3) as (I1 & I2 & I3 & I4 & I5).
    rewrite I1, I2, I3, I4, H1, H2, H4. repeat split.
    apply Forall_app. split; assumption.
Qed.

(** The page after the closing message, and a candidate who keeps typing and
    sending. *)
Lemma ended_interview_stays_ended_witness :
  let closed :=
    fst (InterviewPage.handleSend InterviewPage.answering
           (InterviewPage.Resolved
              {| InterviewPage.nextQuestion := None;
                 InterviewPage.nextQuestionNumber := 0;
                 InterviewPage.closingMessage := Some "Goodbye.";
                 InterviewPage.message := None |})) in
  InterviewPage.interviewEnded closed = true
  /\ InterviewPage.requests
       (snd (InterviewPage.run closed
               [InterviewPage.Typed "One more thing";
                InterviewPage.Sent InterviewPage.Rejected])) = [].
Proof.
  intros closed. split; [vm_compute; reflexivity|].
  destruct (ended_interview_stays_ended closed
              [InterviewPage.Typed "One more thing";
               InterviewPage.Sent InterviewPage.Rejected])
    as (_ & _ & _ & Hr & _); [vm_compute; reflexivity | exact Hr].
Defined.

(** X4. Nothing on the text interview page stops its clock: once the timer
    runs, it is still running after any visit, also after the interview has
    ended, and the elapsed time is the number of seconds that have passed. *)
Theorem interview_clock_never_stops (s : InterviewPage.State)
    (events : list InterviewPage.Event) :
  InterviewPage.isTimerRunning s = true ->
  InterviewPage.isComplete s = false ->
  InterviewPage.isTimerRunning (fst (InterviewPage.run s events)) = true
  /\ InterviewPage.isComplete (fst (InterviewPage.run s events)) = false
  /\ InterviewPage.elapsedTime (fst (InterviewPage.run s events))
     = InterviewPage.elapsedTime s + InterviewPage.seconds events.
Proof.
  revert s. induction events as [|e events IH]; intros s Hrun Hc.
  - simpl. repeat split; auto.
  - rewrite run_cons. cbn [fst].
    assert (Hstep :
      InterviewPage.isTimerRunning (fst (InterviewPage.handle s e)) = true
      /\ InterviewPage.isComplete (fst (InterviewPage.handle s e)) = false
      /\ InterviewPage.elapsedTime (fst (InterviewPage.handle s e))
         + InterviewPage.seconds events
         = InterviewPage.elapsedTime s + InterviewPage.seconds (e :: events)).
    { destruct e as [v | o | | | |]; cbn [InterviewPage.handle InterviewPage.seconds fst].
      - auto.
      - destruct (handleSend_cases s o) as [[_ E] | (_ & _ & _ & _ & H1 & H2 & H3)].
        + rewrite E. auto.
        + rewrite H1, H2, H3. auto.
      - unfold InterviewPage.handleStopRecording. destruct (_ <? _); auto.
      - unfold InterviewPage.timerTick. rewrite Hrun, Hc. simpl. repeat split; auto; lia.
      - auto.
      - unfold InterviewPage.recordingTick. destruct (InterviewPage.isRecording s); auto. }
    destruct Hstep as (H1 & H2 & H3).
    destruct (IH _ H1 H2) as (I1 & I2 & I3).
    rewrite I1, I2, I3. auto.
Qed.

(** The clock of a finished interview, two seconds later. *)
Lemma interview_clock_never_stops_witness :
  let events :=
    [InterviewPage.Typed "I built a compiler.";
     InterviewPage.Sent (InterviewPage.Resolved
       {| InterviewPage.nextQuestion := None;
          InterviewPage.nextQuestionNumber := 0;
          InterviewPage.closingMessage := Some "Goodbye.";
          InterviewPage.message := None |});
     InterviewPage.Second; InterviewPage.Second] in
  InterviewPage.interviewEnded (fst (InterviewPage.run InterviewPage.asked events)) = true
  /\ InterviewPage.elapsedTime (fst (InterviewPage.run InterviewPage.asked events)) = 2.
Proof.
  intros events. split; [vm_compute; reflexivity|].
  destruct (interview_clock_never_stops InterviewPage.asked events)
    as (_ & _ & He); [reflexivity | reflexivity | exact He].
Defined.

(** ** Reading the clock back *)

Section Clock.

Lemma split_at_colon (m1 m2 s1 s2 : string) :
  JS.allDigits m1 = true -> JS.allDigits m2 = true ->
  m1 +:+ String ":" s1 = m2 +:+ String ":" s2 -> m1 = m2 /\ s1 = s2.
Proof.
  revert m2. induction m1 as [|c m1 IH]; intros [|d m2] H1 H2 E; simpl in *.
  - injection E as ->. auto.
  - injection E as <- _. discriminate H2.
  - injection E as -> _. discriminate H1.
  - injection E as -> E.
    apply andb_prop in H1 as [_ H1]. apply andb_prop in H2 as [_ H2].
    destruct (IH m2 H1 H2 E) as [-> ->]. auto.
Qed.

End Clock.

(** X5. The clock text determines the elapsed time: two different numbers
    of seconds are never formatted alike. *)
Theorem formatTime_injective (a b : nat) :
  InterviewPage.formatTime a = InterviewPage.formatTime b -> a = b.
Proof.
  unfold InterviewPage.formatTime. cbv zeta.
  intros E.
  change (?m +:+ ":" +:+ ?s) with (m +:+ String ":" s) in E.
  apply split_at_colon in E as [Em Es]; try apply padStart_two_digits.
  assert (Hm : Some (a / 60) = Some (b / 60))
    by (rewrite <- !padStart_two_value; now f_equal).
  assert (Hs : Some (a mod 60) = Some (b mod 60))
    by (rewrite <- !padStart_two_value; now f_equal).
  assert (Hm' : a / 60 = b / 60) by congruence.
  assert (Hs' : a mod 60 = b mod 60) by congruence.
  pose proof (Nat.div_mod_eq a 60) as Ha. pose proof (Nat.div_mod_eq b 60) as Hb.
  rewrite Hm', Hs' in Ha. congruence.
Qed.

(** One hour and five seconds, and the only time that reads [60:05]. *)
Lemma formatTime_injective_witness :
  InterviewPage.formatTime 3605 = "60:05"
  /\ forall b, InterviewPage.formatTime b = InterviewPage.formatTime 3605 -> b = 3605.
Proof.
  split; [vm_compute; reflexivity|].
  intros b E. apply (formatTime_injective b 3605). exact E.
Defined.

(** X6. When the interview cannot be started the page ends on its error
    screen, whatever it showed before: the text is the detail of the failure
    when there is one, the fixed message otherwise, and it is never empty;
    the loading indicator is cleared. *)
Theorem failed_start_shows_error (detail : option string) (s : InterviewPage.State) :
  exists shown : string,
    InterviewPage.render (fst (InterviewPage.initializationFailed detail s))
    = InterviewPage.ErrorScreen shown
    /\ shown <> ""
    /\ (JS.truthyProp detail = true -> detail = Some shown)
    /\ (JS.truthyProp detail = false ->
        shown = "Failed to start interview. Please try again.")
    /\ InterviewPage.loading (fst (InterviewPage.initializationFailed detail s)) = false
    /\ InterviewPage.submissions (snd (InterviewPage.initializationFailed detail s)) = 0.
Proof.
  unfold InterviewPage.initializationFailed, InterviewPage.render.
  destruct detail as [[|c d]|]; simpl; eexists; repeat split;
    try discriminate; try reflexivity; intros; discriminate.
Qed.

(** X7. Whatever the transcription request comes back with, the recording is
    reset exactly once, as the last thing done, and the page is no longer
    transcribing; the input is replaced only by the text of a successful
    transcription and otherwise kept, and the candidate is told when there is
    no text; the transcript and the question number are not touched. *)
Theorem transcribeAudio_resets (blob : string) (t : InterviewPage.Transcription)
    (s : InterviewPage.State) :
  let s' := fst (InterviewPage.transcribeAudio blob t s) in
  let cmds := snd (InterviewPage.transcribeAudio blob t s) in
  InterviewPage.isTranscribing s' = false
  /\ last cmds = Some InterviewPage.ResetRecording
  /\ InterviewPage.resets cmds = 1
  /\ InterviewPage.input s'
     = match t with InterviewPage.Heard text => text | _ => InterviewPage.input s end
  /\ (match t with
      | InterviewPage.Heard _ => Forall (fun c => forall m, c <> InterviewPage.AlertUser m) cmds
      | _ => exists m, m <> "" /\ In (InterviewPage.AlertUser m) cmds
      end)
  /\ InterviewPage.messages s' = InterviewPage.messages s
  /\ InterviewPage.currentQuestionNumber s' = InterviewPage.currentQuestionNumber s
  /\ InterviewPage.loading s' = InterviewPage.loading s.
Proof.
  intros s' cmds. subst s' cmds.
  destruct t as [text | [[|c e]|] |]; simpl; repeat split;
    try (repeat constructor; intros; discriminate);
    try (eexists; split; [|simpl; eauto]; discriminate).
Qed.

(** ** The voice interview page *)

Section VoiceEffects.

Import VoiceInterviewPage.

(** Whether a render lets the auto-start effect start the recording. *)
Lemma autoStartEffect_started (c : Connection) :
  autoStartEffect true c = (true, []).
Proof.
  unfold autoStartEffect. now rewrite andb_false_r.
Qed.

Lemma autoStarts_started (renders : list Connection) :
  autoStarts true renders = (true, []).
Proof.
  induction renders as [|c renders IH]; [reflexivity|].
  simpl. rewrite autoStartEffect_started, IH. reflexivity.
Qed.

End VoiceEffects.

(** X8. Over any sequence of renders of the voice interview page the
    recording is auto-started at most once: it is started, one second later,
    at the first render that finds the page connected, not recording and not
    complete, and never again, also when the connection is lost and found
    again; if no render is like that, it is never started. *)
Theorem recording_auto_started_once (renders : list VoiceInterviewPage.Connection) :
  let ready := fun c : VoiceInterviewPage.Connection =>
    VoiceInterviewPage.connected c && negb (VoiceInterviewPage.recording c)
    && negb (VoiceInterviewPage.complete c) in
  let result := VoiceInterviewPage.autoStarts false renders in
  length (snd result) <= 1
  /\ (snd result = [VoiceInterviewPage.StartRecordingAfter 1000] <-> existsb ready renders = true)
  /\ (snd result = [] <-> existsb ready renders = false)
  /\ fst result = existsb ready renders.
Proof.
  intros ready result. subst result.
  induction renders as [|c renders IH]; [simpl; repeat split; auto; discriminate|].
  cbn [VoiceInterviewPage.autoStarts existsb].
  unfold VoiceInterviewPage.autoStartEffect. rewrite andb_true_r.
  fold (ready c). destruct (ready c).
  - rewrite autoStarts_started. simpl. repeat split; auto; discriminate.
  - destruct (VoiceInterviewPage.autoStarts false renders) as [r sch]. simpl in *.
    exact IH.
Qed.

(** X9. When the interview is complete and its assessment has arrived the
    voice page schedules the move to the results, after five seconds,
    whatever else it shows: it shows the completion screen with the
    assessment when the hook reports no error, and the connection error
    screen, with the move to the results still scheduled, when it does. *)
Theorem completion_navigates_whatever_is_shown (p : VoiceInterviewPage.Props)
    (a : Api.Assessment) :
  VoiceInterviewPage.isComplete p = true ->
  VoiceInterviewPage.assessment p = Some a ->
  VoiceInterviewPage.isInitializing p = false ->
  VoiceInterviewPage.completionEffect p = [VoiceInterviewPage.NavigateAfter 5000 "/results"]
  /\ VoiceInterviewPage.render p
     = if JS.truthyProp (VoiceInterviewPage.error p)
       then VoiceInterviewPage.ConnectionError (default "" (VoiceInterviewPage.error p))
       else VoiceInterviewPage.InterviewComplete (Some a).
Proof.
  intros Hc Ha Hi. unfold VoiceInterviewPage.completionEffect, VoiceInterviewPage.render.
  rewrite Hc, Ha, Hi. split; reflexivity.
Qed.

(** A completed interview whose connection then reported an error. *)
Lemma completion_navigates_whatever_is_shown_witness :
  let p := {| VoiceInterviewPage.isInitializing := false;
              VoiceInterviewPage.isConnected := false;
              VoiceInterviewPage.error := Some "WebSocket connection failed";
              VoiceInterviewPage.isComplete := true;
              VoiceInterviewPage.assessment := Some Api.emptyAssessment;
              VoiceInterviewPage.questionNumber := 3 |} in
  VoiceInterviewPage.render p = VoiceInterviewPage.ConnectionError "WebSocket connection failed"
  /\ VoiceInterviewPage.completionEffect p
     = [VoiceInterviewPage.NavigateAfter 5000 "/results"].
Proof.
  intros p.
  destruct (completion_navigates_whatever_is_shown p Api.emptyAssessment)
    as [He Hr]; [reflexivity | reflexivity | reflexivity |].
  split; [exact Hr | exact He].
Defined.
(** ** The most frequent strengths and weaknesses *)

Section Counting.

Import Analytics.

Lemma countOf_bump (key k : string) (m : list (string * nat)) :
  countOf k (bump key m) = countOf k m + (if String.eqb key k then 1 else 0).
Proof.
  induction m as [|[k' n] rest IH]; simpl.
  - reflexivity.
  - destruct (String.eqb k' key) eqn:E; simpl.
    + apply String.eqb_eq in E. subst k'. destruct (String.eqb key k); lia.
    + destruct (String.eqb k' k) eqn:E2; [|exact IH].
      apply String.eqb_eq in E2. subst k'. rewrite String.eqb_sym, E. lia.
Qed.

Lemma countOf_tally (items : list string) (k : string) (m : list (string * nat)) :
  countOf k (tally items m) = countOf k m + occurrences k items.
Proof.
  revert m. induction items as [|x items IH]; intros m; simpl.
  - lia.
  - unfold tally in *. simpl. rewrite IH, countOf_bump. lia.
Qed.

Lemma bump_keys (key k : string) (m : list (string * nat)) :
  k ∈ (bump key m).*1 -> k = key \/ k ∈ m.*1.
Proof.
  induction m as [|[k' n] rest IH]; simpl.
  - intros H. apply list_elem_of_singleton in H. now left.
  - destruct (String.eqb k' key) eqn:E; simpl.
    + intros H. now right.
    + intros H. apply elem_of_cons in H as [-> | H].
      * right. left.
      * destruct (IH H) as [-> | Hin]; [now left | right; now right].
Qed.

Lemma bump_NoDup (key : string) (m : list (string * nat)) :
  NoDup m.*1 -> NoDup (bump key m).*1.
Proof.
  induction m as [|[k' n] rest IH]; simpl.
  - intros _. apply NoDup_singleton.
  - intros H. apply NoDup_cons in H as [Hnotin Hrest].
    destruct (String.eqb k' key) eqn:E; simpl.
    + apply NoDup_cons. split; assumption.
    + apply NoDup_cons. split; [|auto].
      intros Hin. apply bump_keys in Hin as [-> | Hin]; [|contradiction].
      rewrite String.eqb_refl in E. discriminate.
Qed.

Lemma bump_positive (key : string) (m : list (string * nat)) :
  Forall (fun e => 1 <= e.2) m -> Forall (fun e => 1 <= e.2) (bump key m).
Proof.
  induction m as [|[k' n] rest IH]; simpl; intros H.
  - repeat constructor.
  - apply Forall_cons in H as [Hn Hrest].
    destruct (String.eqb k' key); constructor; simpl in *; auto; lia.
Qed.

Lemma tally_NoDup (items : list string) (m : list (string * nat)) :
  NoDup m.*1 -> NoDup (tally items m).*1.
Proof.
  revert m. induction items as [|x items IH]; intros m H; [exact H|].
  apply (IH (bump x m)). now apply bump_NoDup.
Qed.

Lemma tally_positive (items : list string) (m : list (string * nat)) :
  Forall (fun e => 1 <= e.2) m -> Forall (fun e => 1 <= e.2) (tally items m).
Proof.
  revert m. induction items as [|x items IH]; intros m H; [exact H|].
  apply (IH (bump x m)). now apply bump_positive.
Qed.

(** The count of a key of an object is the count of its entry. *)
Lemma countOf_entry (k : string) (n : nat) (m : list (string * nat)) :
  NoDup m.*1 -> (k, n) ∈ m -> countOf k m = n.
Proof.
  induction m as [|[k' n'] rest IH]; simpl; intros Hnd Hin.
  - now apply elem_of_nil in Hin.
  - apply NoDup_cons in Hnd as [Hnotin Hrest].
    apply elem_of_cons in Hin as [Heq | Hin].
    + injection Heq as -> ->. now rewrite String.eqb_refl.
    + destruct (String.eqb k' k) eqn:E; [|auto].
      apply String.eqb_eq in E. subst k'. exfalso. apply Hnotin.
      apply list_elem_of_fmap. exists (k, n). split; [reflexivity | assumption].
Qed.

Lemma entry_countOf (k : string) (m : list (string * nat)) :
  1 <= countOf k m -> (k, countOf k m) ∈ m.
Proof.
  induction m as [|[k' n'] rest IH]; simpl; intros H; [lia|].
  destruct (String.eqb k' k) eqn:E.
  - apply String.eqb_eq in E. subst k'. left.
  - right. auto.
Qed.

Lemma occurrences_positive (k : string) (items : list string) :
  k ∈ items -> 1 <= occurrences k items.
Proof.
  induction items as [|x items IH]; intros H.
  - now apply elem_of_nil in H.
  - simpl. apply elem_of_cons in H as [-> | H].
    + rewrite String.eqb_refl. lia.
    + specialize (IH H). lia.
Qed.

(** What the counting loop leaves in the object. *)
Lemma tally_entries (items : list string) :
  NoDup (tally items []).*1
  /\ (forall k n, (k, n) ∈ tally items [] -> n = occurrences k items /\ 1 <= n)
  /\ (forall k, k ∈ items -> (k, occurrences k items) ∈ tally items []).
Proof.
  assert (Hnd : NoDup (tally items []).*1) by (apply tally_NoDup; constructor).
  split; [exact Hnd|]. split.
  - intros k n Hin. split.
    + rewrite <- (countOf_entry k n _ Hnd Hin), countOf_tally. reflexivity.
    + pose proof (tally_positive items [] ltac:(constructor)) as Hpos.
      rewrite Forall_forall in Hpos. exact (Hpos _ Hin).
  - intros k Hin. pose proof (countOf_tally items k []) as Hc. simpl in Hc.
    rewrite <- Hc. apply entry_countOf. rewrite Hc. now apply occurrences_positive.
Qed.

Lemma insertByCount_Permutation (e : string * nat) (l : list (string * nat)) :
  insertByCount e l ≡ₚ e :: l.
Proof.
  induction l as [|e' l IH]; simpl; [reflexivity|].
  destruct (e'.2 <? e.2); [reflexivity|].
  rewrite IH. apply Permutation_swap.
Qed.

Lemma sortByCount_Permutation (m : list (string * nat)) : sortByCount m ≡ₚ m.
Proof.
  unfold sortByCount.
  assert (H : forall acc, fold_left (fun sorted e => insertByCount e sorted) m acc ≡ₚ acc ++ m).
  { induction m as [|e m IH]; intros acc; simpl.
    - now rewrite app_nil_r.
    - rewrite IH, insertByCount_Permutation. simpl. apply Permutation_middle. }
  exact (H []).
Qed.

Lemma insertByCount_sorted (e : string * nat) (l : list (string * nat)) :
  StronglySorted (fun a b => b.2 <= a.2) l ->
  StronglySorted (fun a b => b.2 <= a.2) (insertByCount e l).
Proof.
  induction l as [|e' l IH]; simpl; intros H.
  - repeat constructor.
  - apply StronglySorted_cons in H as [Hall Hl].
    destruct (e'.2 <? e.2) eqn:E.
    + apply Nat.ltb_lt in E. constructor.
      * constructor; assumption.
      * constructor; [lia|]. eapply Forall_impl; [exact Hall|]. simpl. intros; lia.
    + apply Nat.ltb_ge in E. constructor; [auto|].
      rewrite insertByCount_Permutation. constructor; assumption.
Qed.

Lemma sortByCount_sorted (m : list (string * nat)) :
  StronglySorted (fun a b => b.2 <= a.2) (sortByCount m).
Proof.
  unfold sortByCount.
  assert (H : forall acc, StronglySorted (fun a b => b.2 <= a.2) acc ->
            StronglySorted (fun a b => b.2 <= a.2)
              (fold_left (fun sorted e => insertByCount e sorted) m acc)).
  { induction m as [|e m IH]; intros acc Hacc; simpl; [exact Hacc|].
    apply IH. now apply insertByCount_sorted. }
  apply H. constructor.
Qed.

(** The two nested loops of [calculateStats] count the items of all results
    in order. *)
Lemma nested_loops_tally (f : Api.Reply -> list string) (data : list Api.Reply)
    (m : list (string * nat)) :
  fold_left (fun m r => fold_left (fun m s => bump s m) (f r) m) data m
  = tally (flat_map f data) m.
Proof.
  revert m. induction data as [|r data IH]; intros m; simpl; [reflexivity|].
  rewrite IH. unfold tally. now rewrite fold_left_app.
Qed.

(** The five entries [topFive] selects from the counts of [items]. *)
Lemma topFive_most_frequent (items : list string) :
  let top := topFive (tally items []) in
  length top <= 5
  /\ NoDup (name <$> top)
  /\ StronglySorted (fun a b => count b <= count a) top
  /\ (forall t, In t top ->
        In (name t) items /\ count t = occurrences (name t) items /\ 1 <= count t)
  /\ (forall s, In s items -> ~ In s (name <$> top) ->
        length top = 5 /\ forall t, In t top -> occurrences s items <= count t).
Proof.
  intros top. subst top. unfold topFive.
  destruct (tally_entries items) as (Hnd & Hentry & Hall).
  pose proof (sortByCount_Permutation (tally items [])) as Hperm.
  pose proof (sortByCount_sorted (tally items [])) as Hsorted.
  set (sorted := sortByCount (tally items [])) in *.
  set (toTally := fun e : string * nat => {| name := e.1; count := e.2 |}).
  assert (Hnames : forall l : list (string * nat), name <$> (toTally <$> l) = l.*1).
  { intros l. rewrite <- list_fmap_compose. reflexivity. }
  rewrite <- (take_drop 5 sorted) in Hsorted.
  split; [|split; [|split; [|split]]].
  - rewrite length_fmap, length_take. lia.
  - rewrite Hnames. apply (sublist_NoDup _ (sorted.*1)).
    + now rewrite Hperm.
    + apply fmap_sublist, sublist_take.
  - apply StronglySorted_app_1_l in Hsorted.
    induction Hsorted as [|e l Hl IH Hel]; simpl; constructor; [exact IH|].
    rewrite Forall_fmap. exact Hel.
  - intros t Ht. apply list_elem_of_In, list_elem_of_fmap in Ht as ([k n] & -> & Hin).
    apply subseteq_take in Hin. rewrite Hperm in Hin.
    destruct (Hentry k n Hin) as [Hn Hpos]. simpl.
    split; [|split; assumption].
    rewrite <- list_elem_of_In.
    assert (Hocc : 1 <= occurrences k items) by lia.
    clear - Hocc. induction items as [|x items IH]; simpl in Hocc; [lia|].
    destruct (String.eqb x k) eqn:E.
    + apply String.eqb_eq in E. subst x. left.
    + right. apply IH. lia.
  - intros s Hs Hnot. apply list_elem_of_In in Hs.
    rewrite Hnames in Hnot.
    pose proof (Hall s Hs) as Hin. rewrite <- Hperm in Hin.
    rewrite <- (take_drop 5 sorted) in Hin.
    apply elem_of_app in Hin as [Hin | Hin].
    { exfalso. apply Hnot. apply list_elem_of_In, list_elem_of_fmap.
      exists (s, occurrences s items). split; [reflexivity | assumption]. }
    split.
    + rewrite length_fmap, length_take.
      assert (Hlen : 1 <= length (drop 5 sorted)).
      { destruct (drop 5 sorted); [now apply elem_of_nil in Hin | simpl; lia]. }
      rewrite length_drop in Hlen. lia.
    + intros t Ht. apply list_elem_of_In, list_elem_of_fmap in Ht as (e & -> & He).
      exact (StronglySorted_app_1_elem_of _ _ _ _ _ Hsorted He Hin).
Qed.

End Counting.

(** X10. Of the strengths named in the assessments of the interviews,
    [topStrengths] lists at most five, each once, each with the number of
    times it was named, in the order of falling counts; a strength that is
    left out is left out because five are listed, none of which was named
    less often.  [commonWeaknesses] lists the weaknesses in the same way.
    The strengths and weaknesses are taken to be phrases, none of them the
    name of a property that the counting object inherits, such as
    "constructor": for such a name the object does not start at zero. *)
Theorem top_strengths_most_frequent (data : list Api.Reply) (stats : Analytics.Stats) :
  data <> [] ->
  Forall (fun s => ~ In s JS.inherited)
    (flat_map Analytics.strengthsOf data ++ flat_map Analytics.weaknessesOf data) ->
  let st := Analytics.calculateStats (Some data) stats in
  let mostFrequent := fun (items : list string) (top : list Analytics.Tally) =>
    length top <= 5
    /\ NoDup (Analytics.name <$> top)
    /\ StronglySorted (fun a b => Analytics.count b <= Analytics.count a) top
    /\ (forall t, In t top ->
          In (Analytics.name t) items
          /\ Analytics.count t = Analytics.occurrences (Analytics.name t) items
          /\ 1 <= Analytics.count t)
    /\ (forall s, In s items -> ~ In s (Analytics.name <$> top) ->
          length top = 5
          /\ forall t, In t top -> Analytics.occurrences s items <= Analytics.count t) in
  mostFrequent (flat_map Analytics.strengthsOf data) (Analytics.topStrengths st)
  /\ mostFrequent (flat_map Analytics.weaknessesOf data) (Analytics.commonWeaknesses st).
Proof.
  intros Hne _ st mostFrequent. subst st mostFrequent.
  destruct data as [|r rs]; [congruence|]. clear Hne.
  unfold Analytics.calculateStats. cbv zeta.
  cbn [Analytics.topStrengths Analytics.commonWeaknesses].
  rewrite !nested_loops_tally. cbv beta.
  split; apply topFive_most_frequent.
Qed.

(** Six strengths of which "Clear answers" is named twice: it comes first,
    and the strength counted last is the one left out. *)
Lemma top_strengths_most_frequent_witness :
  let named := fun l : list string =>
    {| Api.assessment := Some {| Api.candidate_score_percent := Some (JS.Number 70);
                                 Api.hiring_recommendation := None;
                                 Api.summary := None;
                                 Api.strengths := Some l;
                                 Api.weaknesses := None;
                                 Api.improvement_areas := Some ["Pace"];
                                 Api.recommendations := None |} |} in
  let data := [named ["Depth"; "Clear answers"; "Examples"];
               named ["Structure"; "Clear answers"; "Humour"; "Brevity"]] in
  let st := Analytics.calculateStats (Some data) Analytics.initialStats in
  Analytics.topStrengths st
  = [ {| Analytics.name := "Clear answers"; Analytics.count := 2 |};
      {| Analytics.name := "Depth"; Analytics.count := 1 |};
      {| Analytics.name := "Examples"; Analytics.count := 1 |};
      {| Analytics.name := "Structure"; Analytics.count := 1 |};
      {| Analytics.name := "Humour"; Analytics.count := 1 |} ]
  /\ length (Analytics.topStrengths st) <= 5
  /\ length (Analytics.commonWeaknesses st) <= 5.
Proof.
  intros named data st.
  destruct (top_strengths_most_frequent data Analytics.initialStats) as [Hs Hw];
    [discriminate | |].
  { apply Forall_forall. intros s Hs H. apply list_elem_of_In in Hs. simpl in Hs.
    decompose [or] Hs; try contradiction; subst s;
      simpl in H; decompose [or] H; try contradiction; discriminate. }
  split; [vm_compute; reflexivity|].
  split; [exact (proj1 Hs) | exact (proj1 Hw)].
Defined.
(** ** The scores behind the statistics *)

Section Scores.

Local Open Scope Z_scope.

Lemma Qle_bool_quotient_l (t a : Z) (p : positive) :
  Qle_bool (inject_Z t / inject_Z (Z.pos p)) (inject_Z a) = (t <=? a * Z.pos p).
Proof.
  unfold Qle_bool, Qdiv, Qinv, Qmult, inject_Z. simpl.
  destruct (Z.leb_spec (t * 1 * 1) (a * Z.pos (1 * p)));
    destruct (Z.leb_spec t (a * Z.pos p)); try reflexivity; lia.
Qed.

Lemma Qle_bool_quotient_r (t a : Z) (p : positive) :
  Qle_bool (inject_Z a) (inject_Z t / inject_Z (Z.pos p)) = (a * Z.pos p <=? t).
Proof.
  unfold Qle_bool, Qdiv, Qinv, Qmult, inject_Z. simpl.
  destruct (Z.leb_spec (a * Z.pos (1 * p)) (t * 1 * 1));
    destruct (Z.leb_spec (a * Z.pos p) t); try reflexivity; lia.
Qed.

End Scores.

(** X11. The highest and the lowest score of the statistics are each the
    parsed score of one of the interviews, and, when no score is [NaN], the
    score of every interview lies between them. *)
Theorem extremes_are_scores (data : list Api.Reply) (stats : Analytics.Stats) :
  data <> [] ->
  let st := Analytics.calculateStats (Some data) stats in
  (exists best, In best data /\ Analytics.highestScore st = Analytics.scoreOf best)
  /\ (exists worst, In worst data /\ Analytics.lowestScore st = Analytics.scoreOf worst)
  /\ (~ In JS.NaN (Analytics.scoreOf <$> data) ->
      forall r, In r data ->
        JS.le (Analytics.lowestScore st) (Analytics.scoreOf r) = true
        /\ JS.le (Analytics.scoreOf r) (Analytics.highestScore st) = true).
Proof.
  intros Hne st. subst st. destruct data as [|r rs]; [congruence|]. clear Hne.
  assert (Hfind : forall v, In v (Analytics.scoreOf <$> (r :: rs)) ->
            exists x, In x (r :: rs) /\ v = Analytics.scoreOf x).
  { intros v Hv. apply list_elem_of_In, list_elem_of_fmap in Hv as (x & -> & Hx).
    exists x. split; [now apply list_elem_of_In | reflexivity]. }
  destruct (scores_cases (r :: rs)) as [[scores Hscores] | Hnan].
  2: { destruct (calculateStats_NaN r rs stats Hnan) as (_ & -> & ->).
       split; [now apply Hfind|]. split; [now apply Hfind|].
       intros Hno. contradiction. }
  destruct scores as [|z zs]; [discriminate|].
  destruct (calculateStats_parsed r rs z zs stats Hscores) as (-> & -> & _).
  destruct (fold_max_bounds zs z) as [Hzhi Hhi].
  destruct (fold_min_bounds zs z) as [Hzlo Hlo].
  rewrite Forall_forall in Hhi, Hlo.
  assert (Hfin : forall v, In v (z :: zs) -> In (JS.Fin v) (Analytics.scoreOf <$> (r :: rs))).
  { intros v Hv. rewrite Hscores. apply list_elem_of_In, list_elem_of_fmap.
    exists v. split; [reflexivity | now apply list_elem_of_In]. }
  split; [apply Hfind, Hfin, fold_max_attained|].
  split; [apply Hfind, Hfin, fold_min_attained|].
  intros _ x Hx.
  assert (Hin : In (Analytics.scoreOf x) (JS.Fin <$> (z :: zs))).
  { rewrite <- Hscores. apply list_elem_of_In, list_elem_of_fmap.
    exists x. split; [reflexivity | now apply list_elem_of_In]. }
  apply list_elem_of_In, list_elem_of_fmap in Hin as (v & -> & Hv).
  simpl. apply elem_of_cons in Hv as [-> | Hv]; split; apply Z.leb_le; auto.
Qed.

(** Scores of 80, "35", none and 65: the highest is 80, and the lowest the 0
    of the interview that was not scored. *)
Lemma extremes_are_scores_witness :
  let scored := fun p : option JS.Value =>
    {| Api.assessment := Some {| Api.candidate_score_percent := p;
                                 Api.hiring_recommendation := None;
                                 Api.summary := None;
                                 Api.strengths := None;
                                 Api.weaknesses := None;
                                 Api.improvement_areas := None;
                                 Api.recommendations := None |} |} in
  let data := [scored (Some (JS.Number 80)); scored (Some (JS.Text "35")); scored None;
               scored (Some (JS.Number 65))] in
  let st := Analytics.calculateStats (Some data) Analytics.initialStats in
  Analytics.highestScore st = JS.Fin 80
  /\ Analytics.lowestScore st = JS.Fin 0
  /\ exists best, In best data /\ Analytics.highestScore st = Analytics.scoreOf best.
Proof.
  intros scored data st.
  destruct (extremes_are_scores data Analytics.initialStats) as (Hbest & _);
    [discriminate|].
  split; [vm_compute; reflexivity|].
  split; [vm_compute; reflexivity | exact Hbest].
Defined.

(** X12. When the scores of a list of results that is not empty are all
    parsed to integers, small enough for the arithmetic of the page to be
    exact, the average score of the statistics is the integer nearest to the
    mean of the parsed scores, the higher one of two that are equally near:
    with [total] the sum of the parsed scores and [n] their number,
    [total / n - 1/2 < averageScore <= total / n + 1/2]. *)
Theorem average_is_nearest_integer (data : list Api.Reply) (stats : Analytics.Stats)
    (scores : list Z) :
  data <> [] ->
  Analytics.scoreOf <$> data = JS.Fin <$> scores ->
  Forall (fun z => (Z.abs z * Z.of_nat (length data) * Z.of_nat (length data) <= 2 ^ 50)%Z)
    scores ->
  let st := Analytics.calculateStats (Some data) stats in
  let total := fold_left Z.add scores 0%Z in
  let n := Z.of_nat (length data) in
  exists average : Z,
    Analytics.averageScore st = JS.Fin average
    /\ (2 * total - n < 2 * n * average <= 2 * total + n)%Z.
Proof.
  intros Hne Hscores _ st total n. subst st total n.
  destruct data as [|r rs]; [congruence|]. clear Hne.
  destruct scores as [|z zs]; [discriminate|].
  destruct (calculateStats_parsed r rs z zs stats Hscores) as (_ & _ & Havg).
  rewrite Havg. eexists. split; [reflexivity|].
  cbn [length].
  change (Z.of_nat (S (length rs))) with (Z.pos (Pos.of_succ_nat (length rs))).
  apply Math_round_nearest.
Qed.

(** Scores of 80 and "65.9": the second is parsed to 65, the mean of the
    parsed scores is 72.5 and the average shown is 73. *)
Lemma average_is_nearest_integer_witness :
  let scored := fun p : JS.Value =>
    {| Api.assessment := Some {| Api.candidate_score_percent := Some p;
                                 Api.hiring_recommendation := None;
                                 Api.summary := None;
                                 Api.strengths := None;
                                 Api.weaknesses := None;
                                 Api.improvement_areas := None;
                                 Api.recommendations := None |} |} in
  let data := [scored (JS.Number 80); scored (JS.Text "65.9")] in
  exists average : Z,
    Analytics.averageScore (Analytics.calculateStats (Some data) Analytics.initialStats)
    = JS.Fin average
    /\ (2 * 145 - 2 < 2 * 2 * average <= 2 * 145 + 2)%Z.
Proof.
  intros scored data.
  apply (average_is_nearest_integer data Analytics.initialStats [80; 65]%Z).
  - discriminate.
  - vm_compute. reflexivity.
  - repeat constructor; vm_compute; discriminate.
Defined.

(** X13. With at most five interviews, whose scores are all parsed to
    integers small enough for the arithmetic of the page to be exact, the
    trend that the analytics page shows compares the mean of the parsed
    scores with its own rounding: it is "Improving" exactly when the average
    of the statistics was rounded down, "Declining" exactly when it was
    rounded up, and "Stable" when the mean is an integer.  With fewer than
    two interviews no trend is shown. *)
Theorem trend_compares_mean_with_rounding (data : list Api.Reply)
    (stats : Analytics.Stats) (scores : list Z) :
  length data <= 5 ->
  Analytics.scoreOf <$> data = JS.Fin <$> scores ->
  Forall (fun z => (Z.abs z * Z.of_nat (length data) * Z.of_nat (length data) <= 2 ^ 50)%Z)
    scores ->
  let st := Analytics.calculateStats (Some data) stats in
  let total := fold_left Z.add scores 0%Z in
  let n := Z.of_nat (length data) in
  (length data < 2 -> Analytics.getScoreTrend data st = None)
  /\ (2 <= length data ->
      exists average : Z,
        Analytics.averageScore st = JS.Fin average
        /\ Analytics.getScoreTrend data st
           = Some (if (average * n <? total)%Z then Analytics.Improving
                   else if (total <? average * n)%Z then Analytics.Declining
                   else Analytics.Stable)).
Proof.
  intros Hfive Hscores _ st total n. split.
  - intros Hlt. unfold Analytics.getScoreTrend.
    destruct (Nat.ltb_spec (length data) 2); [reflexivity | lia].
  - intros Htwo. subst st total n.
    destruct data as [|r rs]; [simpl in Htwo; lia|].
    destruct scores as [|z zs]; [discriminate|].
    destruct (calculateStats_parsed r rs z zs stats Hscores) as (_ & _ & Havg).
    set (st := Analytics.calculateStats (Some (r :: rs)) stats) in *.
    eexists. split; [exact Havg|].
    unfold Analytics.getScoreTrend.
    destruct (Nat.ltb_spec (length (r :: rs)) 2) as [Hlt | _]; [lia|].
    cbv zeta. rewrite (take_ge (r :: rs) 5) by exact Hfive.
    rewrite Havg, Hscores, fold_add_Fin, !length_fmap.
    assert (Hlen : length (z :: zs) = S (length rs)).
    { apply (f_equal length) in Hscores. rewrite !length_fmap in Hscores. now symmetry. }
    rewrite Hlen. cbn [length JS.divide].
    change (Z.of_nat (S (length rs))) with (Z.pos (Pos.of_succ_nat (length rs))).
    cbn [JS.gt JS.lt]. rewrite Qle_bool_quotient_l, Qle_bool_quotient_r.
    set (t := fold_left Z.add _ 0%Z).
    set (a := JS.Math_round _).
    set (p := Z.pos _).
    destruct (Z.leb_spec t (a * p)), (Z.leb_spec (a * p) t),
      (Z.ltb_spec (a * p) t), (Z.ltb_spec t (a * p)); simpl; try reflexivity; lia.
Qed.

(** Scores of 80 and 65: the mean 72.5 was rounded up to 73, and the page
    reports a decline. *)
Lemma trend_compares_mean_with_rounding_witness :
  let scored := fun p : Z =>
    {| Api.assessment := Some {| Api.candidate_score_percent := Some (JS.Number p);
                                 Api.hiring_recommendation := None;
                                 Api.summary := None;
                                 Api.strengths := None;
                                 Api.weaknesses := None;
                                 Api.improvement_areas := None;
                                 Api.recommendations := None |} |} in
  let data := [scored 80%Z; scored 65%Z] in
  let st := Analytics.calculateStats (Some data) Analytics.initialStats in
  Analytics.getScoreTrend data st = Some Analytics.Declining
  /\ (length data < 2 -> Analytics.getScoreTrend data st = None).
Proof.
  intros scored data st.
  destruct (trend_compares_mean_with_rounding data Analytics.initialStats [80; 65]%Z)
    as [Hnone _].
  - simpl; lia.
  - vm_compute. reflexivity.
  - repeat constructor; vm_compute; discriminate.
  - split; [vm_compute; reflexivity | exact Hnone].
Defined.

(** ** The dashboard *)

Section Cards.

Lemma toString_head (n : nat) :
  exists c t, JS.toString n = String c t /\ JS.isDigit c = true.
Proof.
  pose proof (toString_nonempty n) as Hlen.
  pose proof (allDigits_toString n) as Hall.
  destruct (JS.toString n) as [|c t]; [simpl in Hlen; lia|].
  simpl in Hall. apply andb_true_iff in Hall as [Hc _]. eauto.
Qed.

(** A percentage is never shown as the two dashes of the empty card. *)
Lemma percentage_not_dashes (z : Z) : JS.toStringZ z +:+ "%" <> "--".
Proof.
  unfold JS.toStringZ. destruct (z <? 0)%Z.
  - destruct (toString_head (Z.abs_nat z)) as (c & t & -> & Hc).
    simpl. intros H. injection H as -> _. discriminate.
  - destruct (toString_head (Z.to_nat z)) as (c & t & -> & Hc).
    simpl. intros H. injection H as -> _. discriminate.
Qed.

End Cards.

(** X15. The dashboard and the analytics page compute the same number of
    interviews and the same average score from the same results, and the
    average card of the dashboard shows two dashes exactly when there is no
    result, and otherwise that average as a percentage: an integer, or [NaN]
    when a score could not be parsed. *)
Theorem dashboard_matches_analytics (data : option (list Api.Reply)) :
  let d := Dashboard.fetchStats data Dashboard.initialStats in
  let a := Analytics.calculateStats data Analytics.initialStats in
  Dashboard.totalInterviews d = Analytics.totalInterviews a
  /\ Dashboard.averageScore d = Analytics.averageScore a
  /\ (Dashboard.averageCard d = "--" <-> data = None \/ data = Some [])
  /\ (Dashboard.averageCard d <> "--" ->
      Dashboard.averageCard d = JS.show (Analytics.averageScore a) +:+ "%"
      /\ ((exists average : Z,
             Analytics.averageScore a = JS.Fin average
             /\ Dashboard.averageCard d = JS.toStringZ average +:+ "%")
          \/ (Analytics.averageScore a = JS.NaN /\ Dashboard.averageCard d = "NaN%"))).
Proof.
  intros d a. subst d a. destruct data as [[|r rs]|].
  - split; [reflexivity|]. split; [reflexivity|].
    split; [split; [intros _; now right | reflexivity] | intros Hno; now elim Hno].
  - assert (Hsame : Dashboard.averageScore
                      (Dashboard.fetchStats (Some (r :: rs)) Dashboard.initialStats)
                    = Analytics.averageScore
                        (Analytics.calculateStats (Some (r :: rs)) Analytics.initialStats))
      by reflexivity.
    assert (Hcard : Dashboard.averageCard
                      (Dashboard.fetchStats (Some (r :: rs)) Dashboard.initialStats)
                    = JS.show (Analytics.averageScore
                                 (Analytics.calculateStats (Some (r :: rs))
                                    Analytics.initialStats)) +:+ "%")
      by (unfold Dashboard.averageCard; rewrite Hsame; reflexivity).
    assert (Hcases :
      (exists average : Z,
         Analytics.averageScore
           (Analytics.calculateStats (Some (r :: rs)) Analytics.initialStats)
         = JS.Fin average)
      \/ Analytics.averageScore
           (Analytics.calculateStats (Some (r :: rs)) Analytics.initialStats) = JS.NaN).
    { destruct (scores_cases (r :: rs)) as [[[|z zs] Hscores] | Hnan]; [discriminate | |].
      - destruct (calculateStats_parsed r rs z zs Analytics.initialStats Hscores)
          as (_ & _ & Havg). left. eauto.
      - right. apply (calculateStats_NaN r rs Analytics.initialStats Hnan). }
    split; [reflexivity|]. split; [exact Hsame|]. split; [split|].
    + rewrite Hcard. destruct Hcases as [[average ->] | ->]; simpl; intros H;
        [now apply percentage_not_dashes in H | discriminate].
    + intros [H | H]; discriminate.
    + intros _. split; [exact Hcard|]. rewrite Hcard.
      destruct Hcases as [[average ->] | ->]; [left | right]; eauto.
  - split; [reflexivity|]. split; [reflexivity|].
    split; [split; [intros _; now left | reflexivity] | intros Hno; now elim Hno].
Qed.

(** ** The upload of a resume *)

(** X16. On the dashboard and on the resume page alike, a picked file is
    sent to the server exactly when it is a PDF of at most 10 * 1024 * 1024
    bytes and a user is stored, and then it is sent once; a file of exactly
    that size passes.  A picked file that is not sent leaves an error
    message, the same on both pages, and after an upload that was tried the
    page is no longer uploading. *)
Theorem upload_sent_iff_checks_pass (file : option Dashboard.File) (how : Dashboard.Upload)
    (d : Dashboard.UploadState) (m : ResumeManagement.UploadState) :
  let onDashboard := Dashboard.handleFileUpload file how d in
  let onResumePage := ResumeManagement.handleFileUpload file how m in
  let sent := Dashboard.uploads (snd onDashboard) in
  ResumeManagement.uploads (snd onResumePage) = sent
  /\ (forall f, In f sent <->
        file = Some f
        /\ Dashboard.type f = "application/pdf"
        /\ (Dashboard.size f <= 10485760)%N
        /\ how <> Dashboard.NoUser)
  /\ length sent <= 1
  /\ (file <> None -> sent = [] ->
      exists text, Dashboard.uploadError (fst onDashboard) = Some text
                   /\ ResumeManagement.uploadError (fst onResumePage) = Some text)
  /\ (sent <> [] ->
      Dashboard.uploading (fst onDashboard) = false
      /\ ResumeManagement.uploading (fst onResumePage) = false)
  /\ (file = None -> fst onDashboard = d /\ fst onResumePage = m).
Proof.
  intros onDashboard onResumePage sent. subst onDashboard onResumePage sent.
  unfold Dashboard.handleFileUpload, ResumeManagement.handleFileUpload.
  destruct file as [f|].
  2: { simpl. repeat split; try tauto; try lia; try congruence.
       intros (H & _); discriminate. }
  destruct (String.eqb_spec (Dashboard.type f) "application/pdf") as [Htype | Htype];
    cbn [negb].
  2: { simpl. repeat split; try tauto; try lia; try congruence; eauto.
       intros (H & Ht & _). injection H as <-. contradiction. }
  destruct (N.ltb_spec (10 * 1024 * 1024) (Dashboard.size f)) as [Hsize | Hsize].
  { simpl. repeat split; try tauto; try lia; try congruence; eauto.
    intros (H & _ & Hs & _). injection H as <-. lia. }
  assert (Hsize' : (Dashboard.size f <= 10485760)%N) by lia.
  destruct how as [|detail|]; simpl.
  all: repeat split; try lia; try congruence; eauto.
  all: try (intros []; fail).
  all: try (intros (_ & _ & _ & H); congruence).
  all: try (intros [<- | []]; repeat split; auto; discriminate).
  all: try (intros (H & _); injection H as <-; now left).
  all: match goal with H : _ \/ False |- _ => destruct H as [<- | []] end; auto.
Qed.

(** ** The pages of the job board *)

Section Pages.

Local Open Scope Z_scope.

Lemma click_in_range (totalPages page : Z) (c : JobBoard.Click) :
  1 <= page <= totalPages -> 1 <= JobBoard.click totalPages page c <= totalPages.
Proof.
  intros H. destruct c; unfold JobBoard.click, JobBoard.previousPage, JobBoard.nextPage; lia.
Qed.

End Pages.

(** X17. While the number of pages stays the same, no sequence of clicks on
    Previous and Next takes the job board off the pages 1 to [totalPages].
    A click changes nothing exactly where its button is disabled, on page 1
    for Previous and on the last page for Next, and elsewhere Previous and
    Next undo each other. *)
Theorem page_stays_in_range (totalPages page : Z) (clicks : list JobBoard.Click) :
  (1 <= page <= totalPages)%Z ->
  (1 <= fold_left (JobBoard.click totalPages) clicks page <= totalPages)%Z
  /\ (JobBoard.previousPage page = page <-> page = 1%Z)
  /\ (JobBoard.nextPage totalPages page = page <-> page = totalPages)
  /\ ((page < totalPages)%Z ->
      JobBoard.previousPage (JobBoard.nextPage totalPages page) = page)
  /\ ((1 < page)%Z ->
      JobBoard.nextPage totalPages (JobBoard.previousPage page) = page).
Proof.
  intros Hrange. split.
  - revert page Hrange. induction clicks as [|c clicks IH]; intros page Hrange; simpl.
    + exact Hrange.
    + apply IH. now apply click_in_range.
  - unfold JobBoard.previousPage, JobBoard.nextPage. repeat split; lia.
Qed.

(** Page 2 of 3, and Next clicked three times and Previous once. *)
Lemma page_stays_in_range_witness :
  (1 <= fold_left (JobBoard.click 3)
          [JobBoard.Next; JobBoard.Next; JobBoard.Next; JobBoard.Previous] 2 <= 3)%Z
  /\ fold_left (JobBoard.click 3)
       [JobBoard.Next; JobBoard.Next; JobBoard.Next; JobBoard.Previous] 2%Z = 2%Z.
Proof.
  split; [|reflexivity].
  exact (proj1 (page_stays_in_range 3 2
                  [JobBoard.Next; JobBoard.Next; JobBoard.Next; JobBoard.Previous]
                  ltac:(lia))).
Defined.

(** ** The bands of a score *)

